(** * KTM train status dashboard: a shallow embedding of [scripts/ktm_taskade.py]

    The script polls a GTFS-realtime vehicle-position feed, renders a Markdown
    report and upserts it into one Taskade task.  This development embeds the
    retrying HTTP wrapper, the record extractor, the report renderer, the
    Taskade client and the orchestrator [main], and proves the behavioural
    statements of the specification against them.

    Conventions.
    - Python [str] values are [string]s holding the UTF-8 bytes of the text.
      Equality, concatenation and the search for an ASCII token are exact on
      them; [str.lower] and [str.strip], which depend on the Unicode tables,
      are fields of the class [PyRuntime].
    - Python [float]s are kept abstract: the operations the script applies to
      them are fields of [PyRuntime] as well, so every theorem holds for any
      implementation of them, IEEE doubles included.
    - Effects (network calls, sleeps, log records, printed lines) are threaded
      through a state-and-exception monad that appends to a trace. *)

From Stdlib Require Import String Ascii List ZArith QArith Lia Bool DecimalString PeanoNat.
Import ListNotations.

Local Close Scope Q_scope.
Local Open Scope list_scope.
Local Open Scope string_scope.

(* ================================================================== *)
(** ** Python strings *)

Module PyStr.

(** [c.lower()] on one character of the ASCII range. *)
Definition lower_ascii (c : ascii) : ascii :=
  let n := nat_of_ascii c in
  if (65 <=? n)%nat && (n <=? 90)%nat then ascii_of_nat (n + 32) else c.

(** [s.lower()] for text whose cased letters are ASCII. *)
Fixpoint lower (s : string) : string :=
  match s with
  | EmptyString => EmptyString
  | String c r => String (lower_ascii c) (lower r)
  end.

(** Characters removed by [str.strip()]: tab, LF, VT, FF, CR, the four
    separators 0x1c..0x1f and the space. *)
Definition is_space (c : ascii) : bool :=
  let n := nat_of_ascii c in
  ((9 <=? n)%nat && (n <=? 13)%nat) || ((28 <=? n)%nat && (n <=? 32)%nat).

Fixpoint lstrip (s : string) : string :=
  match s with
  | EmptyString => EmptyString
  | String c r => if is_space c then lstrip r else s
  end.

Fixpoint rev_onto (s acc : string) : string :=
  match s with
  | EmptyString => acc
  | String c r => rev_onto r (String c acc)
  end.

Definition rev (s : string) : string := rev_onto s EmptyString.

Definition rstrip (s : string) : string := rev (lstrip (rev s)).

(** [s.strip()] for text whose white space is ASCII. *)
Definition strip (s : string) : string := rstrip (lstrip s).

(** [s.rstrip("/")] *)
Fixpoint lstrip_char (ch : ascii) (s : string) : string :=
  match s with
  | EmptyString => EmptyString
  | String c r => if Ascii.eqb c ch then lstrip_char ch r else s
  end.

Definition rstrip_char (ch : ascii) (s : string) : string :=
  rev (lstrip_char ch (rev s)).

(** [needle in hay] *)
Fixpoint contains (needle hay : string) : bool :=
  prefix needle hay
  || match hay with
     | EmptyString => false
     | String _ r => contains needle r
     end.

(** [s[:n]] *)
Definition take (n : nat) (s : string) : string := substring 0 n s.

(** [str(n)] for an [int]. *)
Definition of_Z (z : Z) : string := NilEmpty.string_of_int (Z.to_int z).

(** [str(n)] for a length. *)
Definition of_nat (n : nat) : string := NilEmpty.string_of_uint (Nat.to_uint n).

(** [bool(s)]: a string is truthy when it is not empty. *)
Definition truthy (s : string) : bool :=
  match s with EmptyString => false | String _ _ => true end.

Definition of_bytes (l : list nat) : string :=
  string_of_list_ascii (map ascii_of_nat l).

End PyStr.

(* ================================================================== *)
(** ** Python values *)

(** [None], [bool], [int], [float], [str], [list] and [dict] with [str]
    keys: what [resp.json()] can return, and what the vehicle records hold.
    A dict is kept as the list of its items; [dict_get] reads the first
    binding of a key. *)
#[local] Unset Elimination Schemes.
Inductive pyval (F : Type) : Type :=
| VNone
| VBool (b : bool)
| VInt (n : Z)
| VFloat (x : F)
| VStr (s : string)
| VList (l : list (pyval F))
| VDict (kvs : list (string * pyval F)).
#[local] Set Elimination Schemes.

Arguments VNone {F}.
Arguments VBool {F} b.
Arguments VInt {F} n.
Arguments VFloat {F} x.
Arguments VStr {F} s.
Arguments VList {F} l.
Arguments VDict {F} kvs.

(** ** Exceptions *)

(** The exception classes the script raises or catches.  [RequestException]
    stands for the members of [requests.exceptions] other than [HTTPError]
    (connection errors, timeouts, undecodable JSON bodies).  An [HTTPError]
    carries the text of [e.response] when that attribute is set. *)
Inductive exn : Type :=
| HTTPError (msg : string) (response_text : option string)
| RequestException (msg : string)
| KeyError (key : string)
| IndexError
| TypeError
| AttributeError
| RuntimeError (msg : string)
| ValueError (msg : string)
| OverflowError
| AssertionError
| DecodeError.

(** [isinstance(e, requests.exceptions.RequestException)] *)
Definition is_RequestException (e : exn) : bool :=
  match e with
  | HTTPError _ _ | RequestException _ => true
  | _ => false
  end.

Definition is_KeyError (e : exn) : bool :=
  match e with KeyError _ => true | _ => false end.

(** ** The part of the Python runtime that is left abstract *)

Class PyRuntime (F : Type) : Type := {
  (** the literals [0.0] and [3.6] *)
  f_zero : F;
  f_3_6 : F;
  (** [x * y] *)
  f_mul : F -> F -> F;
  (** [round(x, ndigits)] *)
  f_round : F -> Z -> F;
  (** [x ** n] for an [int] exponent [n >= 0]; [None] is [OverflowError] *)
  f_pow : F -> Z -> option F;
  (** [x != 0.0], the truth value of a float *)
  f_nonzero : F -> bool;
  (** [str(x)] *)
  f_str : F -> string;
  (** the exception [time.sleep(x)] raises, if any (negative, NaN or
      oversized delays) *)
  sleep_raises : F -> option exn;
  (** [str(v)] for a list or a dict *)
  container_str : pyval F -> string;
  (** [s.lower()] and [s.strip()], with the three facts about them that the
      proofs use: both map the empty string to itself, and only the empty
      string has an empty lower-case form *)
  str_lower : string -> string;
  str_strip : string -> string;
  str_lower_empty : str_lower "" = "";
  str_lower_nonempty : forall s, str_lower s = "" -> s = "";
  str_strip_empty : str_strip "" = ""
}.

(* ================================================================== *)
(** ** Results, effects and the monad of the script *)

Inductive result (A : Type) : Type :=
| Ok (a : A)
| Raise (e : exn).

Arguments Ok {A} a.
Arguments Raise {A} e.

Inductive level : Type := INFO | WARNING | ERROR.

Section Script.

Context {F : Type} {RT : PyRuntime F}.

(** *** GTFS-realtime messages

    The messages of [gtfs_realtime_pb2] with the presence of their
    optional fields ([None]: the field is not set on the wire). *)

Record Position : Type := {
  latitude : F;
  longitude : F;
  speed : option F
}.

Record VehicleDescriptor : Type := { vehicle_id : option string }.

Record TripDescriptor : Type := { route_id : option string }.

Record VehiclePosition : Type := {
  trip : option TripDescriptor;
  vehicle_descriptor : option VehicleDescriptor;
  position : option Position
}.

Record FeedEntity : Type := { vehicle : option VehiclePosition }.

Record FeedHeader : Type := { timestamp : option Z }.

Record FeedMessage : Type := {
  header : FeedHeader;
  entity : list FeedEntity
}.

(** *** HTTP *)

Record request : Type := {
  req_method : string;
  req_url : string;
  req_headers : list (string * string);
  req_json : option (pyval F);
  req_timeout : Z
}.

(** A [requests.Response]: [json_body] is what [resp.json()] returns
    ([None]: it raises), [content_feed] what
    [FeedMessage.ParseFromString(resp.content)] decodes ([None]: it
    raises [DecodeError]). *)
Record response : Type := {
  status_code : Z;
  reason : string;
  text : string;
  json_body : option (pyval F);
  content_feed : option FeedMessage
}.

Inductive outcome : Type :=
| Returned (r : response)
| Failed (e : exn).

(** The network: what the [n]-th call of the run ([n] counted from 0)
    answers to the request it is sent. *)
Definition network : Type := nat -> request -> outcome.

(** *** Configuration *)

Record Config : Type := {
  TASKADE_API_TOKEN : string;
  TASKADE_PROJECT_ID : string;
  TASKADE_TASK_ID : string;
  HTTP_TIMEOUT : Z;
  MAX_RETRIES : Z;
  RETRY_BACKOFF : F
}.

Definition GTFSR_URL : string :=
  "https://api.data.gov.my/gtfs-realtime/vehicle-position/ktmb".
Definition DASHBOARD_TITLE : string := "KTM Train Status Live Update".
Definition TASKADE_BASE_URL : string := "https://www.taskade.com/api/v1".

(** *** Trace *)

(** Entries into the methods of [TaskadeClient]; they are recorded so
    that calls can be counted. *)
Inductive client_call : Type :=
| CallCreateTask (project_id content_md title : string)
| CallUpdateTask (task_id content_md : string)
| CallListTasks (project_id : string)
| CallFindTaskByTitle (project_id title : string).

(** The log records of the script, one constructor per call site. *)
Inductive logmsg : Type :=
| LogRetry (method url : string) (attempt max_retries : Z) (e : exn) (sleep_s : F)
| LogFetching (url : string)
| LogCreating (url : string)
| LogCreateResponse (data : pyval F)
| LogCreated (task_id : pyval F)
| LogCreateKeyError (e : exn)
| LogCheckDebug
| LogUpdating (task_id url : string)
| LogUpdated (task_id : string)
| LogSearching (count : nat) (title : string)
| LogFoundTitle (t : string)
| LogExactMatch (t : string)
| LogPartialMatch (t : string)
| LogNoMatch
| LogProjectRequired
| LogTokenRequired
| LogStart
| LogUpdatingExisting (task_id : string)
| LogUpdateComplete
| LogSearchingExisting (title project_id : string)
| LogFoundNoId
| LogFoundExisting (task_id : string)
| LogCreatingNew
| LogCreatedId (task_id : string)
| LogCreatedNoId
| LogApiError (e : exn)
| LogErrorResponse (body : string)
| LogUnexpectedStructure (e : exn)
| LogUnexpected (e : exn).

Inductive event : Type :=
| EvRequest (r : request)
| EvSleep (seconds : F)
| EvLog (lvl : level) (m : logmsg)
| EvPrintJson (v : pyval F)
| EvCall (c : client_call).

Record state : Type := {
  sent : nat;
  trace : list event
}.

Definition M (A : Type) : Type := state -> result A * state.

Definition ret {A} (a : A) : M A := fun st => (Ok a, st).

Definition raise {A} (e : exn) : M A := fun st => (Raise e, st).

Definition bind {A B} (m : M A) (k : A -> M B) : M B :=
  fun st =>
    match m st with
    | (Ok a, st') => k a st'
    | (Raise e, st') => (Raise e, st')
    end.

(** [try: m  except Exception as e: h e] *)
Definition catch {A} (m : M A) (h : exn -> M A) : M A :=
  fun st =>
    match m st with
    | (Ok a, st') => (Ok a, st')
    | (Raise e, st') => h e st'
    end.

(** The state after one more event. *)
Definition push (ev : event) (st : state) : state :=
  {| sent := sent st; trace := (trace st ++ [ev])%list |}.

Definition emit (ev : event) : M unit :=
  fun st => (Ok tt, push ev st).

Definition log (lvl : level) (m : logmsg) : M unit := emit (EvLog lvl m).

(** One call of [requests.request] / [requests.get]. *)
Definition send (net : network) (r : request) : M response :=
  fun st =>
    let st' := {| sent := S (sent st);
                  trace := (trace st ++ [EvRequest r])%list |} in
    match net (sent st) r with
    | Returned resp => (Ok resp, st')
    | Failed e => (Raise e, st')
    end.

End Script.

Arguments Position F : clear implicits.
Arguments VehiclePosition F : clear implicits.
Arguments FeedEntity F : clear implicits.
Arguments FeedMessage F : clear implicits.
Arguments request F : clear implicits.
Arguments response F : clear implicits.
Arguments outcome F : clear implicits.
Arguments network F : clear implicits.
Arguments Config F : clear implicits.
Arguments logmsg F : clear implicits.
Arguments event F : clear implicits.
Arguments state F : clear implicits.
Arguments M F A : clear implicits.
Arguments push {F} ev st.

Declare Scope script_scope.
Delimit Scope script_scope with script.
Notation "x <- m ;; k" := (bind m (fun x => k))
  (at level 61, m at next level, right associativity) : script_scope.
Notation "m ;;; k" := (bind m (fun _ => k))
  (at level 61, right associativity) : script_scope.

Local Open Scope script_scope.

(* ================================================================== *)
(** ** Operations on Python values *)

Section Values.

Context {F : Type} {RT : PyRuntime F}.

(** [bool(v)] *)
Definition py_truthy (v : pyval F) : bool :=
  match v with
  | VNone => false
  | VBool b => b
  | VInt n => negb (n =? 0)%Z
  | VFloat x => f_nonzero x
  | VStr s => PyStr.truthy s
  | VList l => match l with [] => false | _ :: _ => true end
  | VDict kvs => match kvs with [] => false | _ :: _ => true end
  end.

(** [a or b] *)
Definition py_or (a b : pyval F) : pyval F :=
  if py_truthy a then a else b.

(** [str(v)] *)
Definition py_str (v : pyval F) : string :=
  match v with
  | VNone => "None"
  | VBool true => "True"
  | VBool false => "False"
  | VInt n => PyStr.of_Z n
  | VFloat x => f_str x
  | VStr s => s
  | VList _ | VDict _ => container_str v
  end.

Fixpoint dict_get (kvs : list (string * pyval F)) (key : string)
  : option (pyval F) :=
  match kvs with
  | [] => None
  | (k, v) :: r => if String.eqb k key then Some v else dict_get r key
  end.

(** [d.get(key, default)] on a dict *)
Definition dict_get_default (kvs : list (string * pyval F)) (key : string)
           (default : pyval F) : pyval F :=
  match dict_get kvs key with Some v => v | None => default end.

(** [v.get(key)]: only a dict has the method. *)
Definition py_get (v : pyval F) (key : string) : result (pyval F) :=
  match v with
  | VDict kvs => Ok (dict_get_default kvs key VNone)
  | _ => Raise AttributeError
  end.

(** [v[key]] for a [str] key *)
Definition py_getitem (v : pyval F) (key : string) : result (pyval F) :=
  match v with
  | VDict kvs =>
      match dict_get kvs key with
      | Some x => Ok x
      | None => Raise (KeyError key)
      end
  | _ => Raise TypeError
  end.

(** [v[0]]: the keys of a decoded object are strings, so [0] is never
    one of them. *)
Definition py_getitem0 (v : pyval F) : result (pyval F) :=
  match v with
  | VList l => match l with x :: _ => Ok x | [] => Raise IndexError end
  | VStr s =>
      match s with
      | String c _ => Ok (VStr (String c EmptyString))
      | EmptyString => Raise IndexError
      end
  | VDict _ => Raise (KeyError "0")
  | _ => Raise TypeError
  end.

Fixpoint chars (s : string) : list (pyval F) :=
  match s with
  | EmptyString => []
  | String c r => VStr (String c EmptyString) :: chars r
  end.

(** The elements [for it in v] visits, for the values that have a
    [len()]; the others raise [TypeError]. *)
Definition py_iter (v : pyval F) : result (list (pyval F)) :=
  match v with
  | VList l => Ok l
  | VDict kvs => Ok (map (fun kv => VStr (fst kv)) kvs)
  | VStr s => Ok (chars s)
  | _ => Raise TypeError
  end.

(** [v.strip()]: only a string has the method. *)
Definition py_strip (v : pyval F) : result string :=
  match v with
  | VStr s => Ok (str_strip s)
  | _ => Raise AttributeError
  end.

Definition lift {A} (r : result A) : M F A :=
  fun st => (r, st).

End Values.

(* ================================================================== *)
(** ** Retrying HTTP client *)

Section Http.

Context {F : Type} {RT : PyRuntime F}.
Variable cfg : Config F.
Variable net : network F.

Definition server_error_msg (resp : response F) : string :=
  "Server error " ++ PyStr.of_Z (status_code resp) ++ ": "
    ++ PyStr.take 500 (text resp).

(** The body of the [try]: one request; a status of 500 or more is turned
    into an [HTTPError]. *)
Definition attempt_once (req : request F) : M F (response F) :=
  resp <- send net req ;;
  if (status_code resp >=? 500)%Z
  then raise (HTTPError (server_error_msg resp) None)
  else ret resp.

(** The [except Exception as e] block without its first assignment. *)
Definition back_off (req : request F) (attempt : Z) (e : exn) : M F unit :=
  match f_pow (RETRY_BACKOFF cfg) (attempt - 1) with
  | None => raise OverflowError
  | Some sleep_s =>
      log WARNING (LogRetry (req_method req) (req_url req) attempt
                            (MAX_RETRIES cfg) e sleep_s) ;;;
      match sleep_raises sleep_s with
      | Some err => raise err
      | None => emit (EvSleep sleep_s)
      end
  end.

(** The [for attempt in range(...)] loop with [remaining] iterations left,
    followed by the two statements after it. *)
Fixpoint http_loop (req : request F) (remaining : nat) (attempt : Z)
         (last_err : option exn) : M F (response F) :=
  match remaining with
  | O =>
      match last_err with
      | None => raise AssertionError
      | Some e => raise e
      end
  | S k =>
      catch (attempt_once req)
            (fun e =>
               back_off req attempt e ;;;
               http_loop req k (attempt + 1) (Some e))
  end.

Definition http_request (method url : string)
           (headers : list (string * string))
           (json_body : option (pyval F)) : M F (response F) :=
  http_loop {| req_method := method; req_url := url;
               req_headers := headers; req_json := json_body;
               req_timeout := HTTP_TIMEOUT cfg |}
            (Z.to_nat (MAX_RETRIES cfg)) 1 None.

(** *** GTFS-R ingestion *)

(** [resp.raise_for_status()] *)
Definition raise_for_status (url : string) (resp : response F) : M F unit :=
  let sc := status_code resp in
  if (400 <=? sc)%Z && (sc <? 500)%Z then
    raise (HTTPError (PyStr.of_Z sc ++ " Client Error: " ++ reason resp
                        ++ " for url: " ++ url) (Some (text resp)))
  else if (500 <=? sc)%Z && (sc <? 600)%Z then
    raise (HTTPError (PyStr.of_Z sc ++ " Server Error: " ++ reason resp
                        ++ " for url: " ++ url) (Some (text resp)))
  else ret tt.

Definition fetch_gtfs_realtime_feed (url : string) : M F (FeedMessage F) :=
  log INFO (LogFetching url) ;;;
  resp <- send net {| req_method := "GET"; req_url := url;
                      req_headers := []; req_json := None;
                      req_timeout := HTTP_TIMEOUT cfg |} ;;
  raise_for_status url resp ;;;
  match content_feed resp with
  | Some feed => ret feed
  | None => raise DecodeError
  end.

End Http.

(* ================================================================== *)
(** ** Record extractor *)

Section Extract.

Context {F : Type} {RT : PyRuntime F}.

(** *** Accessors of the generated message classes

    Reading an unset field gives its default: [0] for a number, the empty
    string, and for a message field a default instance of the message. *)

Definition pb_timestamp (h : FeedHeader) : Z :=
  match timestamp h with Some t => t | None => 0%Z end.

Definition pb_vehicle_id (v : VehiclePosition F) : string :=
  match vehicle_descriptor v with
  | Some d => match vehicle_id d with Some s => s | None => "" end
  | None => ""
  end.

Definition pb_route_id (v : VehiclePosition F) : string :=
  match trip v with
  | Some t => match route_id t with Some s => s | None => "" end
  | None => ""
  end.

Definition default_Position : Position F :=
  {| latitude := f_zero; longitude := f_zero; speed := None |}.

Definition pb_position (v : VehiclePosition F) : Position F :=
  match position v with Some p => p | None => default_Position end.

(** [p.speed] as a Python value: always a [float], never [None]. *)
Definition pb_speed (p : Position F) : option F :=
  Some (match speed p with Some s => s | None => f_zero end).

(** [bool(msg)] for a message object: the generated classes define neither
    [__bool__] nor [__len__], so every message is truthy, set or not. *)
Definition message_truthy {A : Type} (msg : A) : bool := true.

Definition sentinel : pyval F := VStr "Unknown".

(** The loop body of [parse_feed] for an entity that has the field
    [vehicle]. *)
Definition vehicle_record (v : VehiclePosition F)
  : list (string * pyval F) :=
  let train_id :=
    if PyStr.truthy (pb_vehicle_id v) then pb_vehicle_id v else "Unknown" in
  let route :=
    if PyStr.truthy (pb_route_id v) then pb_route_id v else "Unknown" in
  let '(lat, lon, speed_kmh) :=
    if message_truthy (pb_position v) then
      (VFloat (f_round (latitude (pb_position v)) 6),
       VFloat (f_round (longitude (pb_position v)) 6),
       VFloat (match pb_speed (pb_position v) with
               | Some s => f_round (f_mul s f_3_6) 2
               | None => f_zero
               end))
    else (sentinel, sentinel, sentinel) in
  [("vehicle_id", VStr train_id); ("route_id", VStr route);
   ("lat", lat); ("lon", lon); ("speed_kmh", speed_kmh)].

Fixpoint parse_entities (es : list (FeedEntity F))
  : list (list (string * pyval F)) :=
  match es with
  | [] => []
  | e :: r =>
      match vehicle e with
      | None => parse_entities r
      | Some v => vehicle_record v :: parse_entities r
      end
  end.

Definition parse_feed (feed : FeedMessage F)
  : option Z * list (list (string * pyval F)) :=
  let feed_ts :=
    if message_truthy (header feed)
       && negb (pb_timestamp (header feed) =? 0)%Z
    then Some (pb_timestamp (header feed)) else None in
  (feed_ts, parse_entities (entity feed)).

End Extract.

(* ================================================================== *)
(** ** Report renderer *)

(** The clock and time-zone conversion the renderer reads:
    [now_text] is [ts_fmt(now_myt())], [local_time_text t] is
    [ts_fmt(datetime.fromtimestamp(t, tz=pytz.UTC).astimezone(MYT_TZ))],
    [None] when the conversion raises. *)
Record Clock : Type := {
  now_text : string;
  local_time_text : Z -> option string
}.

Section Render.

Context {F : Type} {RT : PyRuntime F}.

Definition nl : string := String (ascii_of_nat 10) EmptyString.

(** The bytes the source file has in front of the title. *)
Definition title_glyph : string :=
  PyStr.of_bytes [239; 163; 191; 195; 188; 195; 182; 195; 165].

Definition title_line : string :=
  title_glyph ++ " **KTM Train Status Live Update**" ++ nl ++ nl.

Definition last_updated_line (last_updated : string) : string :=
  "*Last updated: " ++ last_updated ++ "*" ++ nl ++ nl.

Definition no_trains_line : string :=
  "No active trains detected at the moment.".

Definition count_line (total : nat) : string :=
  "Found **" ++ PyStr.of_nat total ++ "** active trains." ++ nl ++ nl.

Definition resolve_last_updated (clk : Clock) (feed_ts : option Z) : string :=
  let last_updated := now_text clk in
  match feed_ts with
  | None => last_updated
  | Some t =>
      match local_time_text clk t with
      | Some s => s
      | None => last_updated
      end
  end.

(** The text one iteration of the loop appends. *)
Definition vehicle_block (v : list (string * pyval F)) : string :=
  let train_id := dict_get_default v "vehicle_id" (VStr "Unknown") in
  let route := dict_get_default v "route_id" (VStr "Unknown") in
  let lat := dict_get_default v "lat" (VStr "Unknown") in
  let lon := dict_get_default v "lon" (VStr "Unknown") in
  let speed_kmh := dict_get_default v "speed_kmh" (VStr "Unknown") in
  "  - **Train ID:** " ++ py_str train_id ++ " | **Route:** "
    ++ py_str route ++ nl
    ++ "    - **Location:** `" ++ py_str lat ++ ", " ++ py_str lon ++ "`" ++ nl
    ++ "    - **Speed:** " ++ py_str speed_kmh ++ " km/h" ++ nl.

Definition format_markdown (clk : Clock) (feed_ts : option Z)
           (vehicles : list (list (string * pyval F))) : string :=
  let last_updated := resolve_last_updated clk feed_ts in
  let total := List.length vehicles in
  let task_content := title_line in
  let task_content := task_content ++ last_updated_line last_updated in
  if (total =? 0)%nat then
    task_content ++ no_trains_line
  else
    let task_content := task_content ++ count_line total in
    fold_left (fun acc v => acc ++ vehicle_block v) vehicles task_content.

End Render.

(* ================================================================== *)
(** ** Taskade client *)

Record TaskadeClient : Type := {
  base : string;
  token : string
}.

Section Client.

Context {F : Type} {RT : PyRuntime F}.
Variable cfg : Config F.
Variable net : network F.

(** [TaskadeClient.__init__] *)
Definition new_client (base_url api_token : string) : result TaskadeClient :=
  if negb (PyStr.truthy base_url) then
    Raise (ValueError "TASKADE_BASE_URL is required")
  else if negb (PyStr.truthy api_token) then
    Raise (ValueError "TASKADE_API_TOKEN is required")
  else Ok {| base := PyStr.rstrip_char "/"%char base_url;
             token := api_token |}.

Definition headers (self : TaskadeClient) : list (string * string) :=
  [("Authorization", "Bearer " ++ token self);
   ("Content-Type", "application/json")].

Definition create_payload (content_md : string) (title : option string)
  : pyval F :=
  let t := match title with
           | Some s => if PyStr.truthy s then s else DASHBOARD_TITLE
           | None => DASHBOARD_TITLE
           end in
  VDict [("tasks",
          VList [VDict [("taskId", VNone);
                        ("placement", VStr "afterbegin");
                        ("contentType", VStr "text/markdown");
                        ("content", VStr content_md);
                        ("title", VStr t)]])].

(** [resp.json()] *)
Definition resp_json (resp : response F) : M F (pyval F) :=
  match json_body resp with
  | Some v => ret v
  | None => raise (RequestException "JSONDecodeError")
  end.

(** [response_data['item'][0]['id']] *)
Definition created_id (response_data : pyval F) : result (pyval F) :=
  match py_getitem response_data "item" with
  | Raise e => Raise e
  | Ok item =>
      match py_getitem0 item with
      | Raise e => Raise e
      | Ok first => py_getitem first "id"
      end
  end.

Definition create_task (self : TaskadeClient)
           (project_id content_md : string) (title : option string)
  : M F (pyval F) :=
  let url := base self ++ "/projects/" ++ project_id ++ "/tasks" in
  emit (EvCall (CallCreateTask project_id content_md
                  (match title with Some s => s | None => "" end))) ;;;
  log INFO (LogCreating url) ;;;
  resp <- http_request cfg net "POST" url (headers self)
            (Some (create_payload content_md title)) ;;
  if negb ((status_code resp =? 200)%Z || (status_code resp =? 201)%Z) then
    raise (RuntimeError ("Create task failed: "
                           ++ PyStr.of_Z (status_code resp) ++ " "
                           ++ text resp))
  else
    response_data <- resp_json resp ;;
    log INFO (LogCreateResponse response_data) ;;;
    catch
      (task_id <- lift (created_id response_data) ;;
       log INFO (LogCreated task_id) ;;;
       ret (VDict [("id", task_id); ("response", response_data)]))
      (fun e =>
         if is_KeyError e then
           log ERROR (LogCreateKeyError e) ;;;
           log ERROR LogCheckDebug ;;;
           raise e
         else raise e).

Definition update_task (self : TaskadeClient) (task_id content_md : string)
  : M F (pyval F) :=
  let url := base self ++ "/tasks/" ++ task_id in
  emit (EvCall (CallUpdateTask task_id content_md)) ;;;
  log INFO (LogUpdating task_id url) ;;;
  resp <- http_request cfg net "PUT" url (headers self)
            (Some (VDict [("content", VStr content_md)])) ;;
  if negb ((status_code resp =? 200)%Z || (status_code resp =? 204)%Z) then
    raise (RuntimeError ("Update task failed: "
                           ++ PyStr.of_Z (status_code resp) ++ " "
                           ++ text resp))
  else
    log INFO (LogUpdated task_id) ;;;
    ret (VDict [("task_id", VStr task_id)]).

Definition list_tasks (self : TaskadeClient) (project_id : string)
  : M F (pyval F) :=
  let url := base self ++ "/projects/" ++ project_id ++ "/tasks" in
  emit (EvCall (CallListTasks project_id)) ;;;
  resp <- http_request cfg net "GET" url (headers self) None ;;
  if negb (status_code resp =? 200)%Z then
    raise (RuntimeError ("List tasks failed: "
                           ++ PyStr.of_Z (status_code resp) ++ " "
                           ++ text resp))
  else
    data <- resp_json resp ;;
    match data with
    | VDict kvs =>
        match dict_get kvs "items" with
        | Some items => ret items
        | None => ret (VList [])
        end
    | VList _ => ret data
    | _ => ret (VList [])
    end.

(** [(it.get("title") or "").strip()] *)
Definition item_title (it : pyval F) : result string :=
  match py_get it "title" with
  | Raise e => Raise e
  | Ok v => py_strip (py_or v (VStr ""))
  end.

(** The first test of the loop body. *)
Definition exact_match (t title : string) : bool :=
  String.eqb (str_lower t) (str_lower title).

(** The second test of the loop body. *)
Definition keyword_match (t : string) : bool :=
  PyStr.contains "ktm" (str_lower t)
  && PyStr.contains "status" (str_lower t)
  && PyStr.contains "update" (str_lower t).

(** The [for it in items] loop of [find_task_by_title] and the two
    statements after it. *)
Fixpoint scan_tasks (items : list (pyval F)) (title : string)
  : M F (option (pyval F)) :=
  match items with
  | [] => log INFO LogNoMatch ;;; ret None
  | it :: rest =>
      t <- lift (item_title it) ;;
      log INFO (LogFoundTitle t) ;;;
      if exact_match t title then
        log INFO (LogExactMatch t) ;;; ret (Some it)
      else if keyword_match t then
        log INFO (LogPartialMatch t) ;;; ret (Some it)
      else scan_tasks rest title
  end.

Definition find_task_by_title (self : TaskadeClient)
           (project_id title : string) : M F (option (pyval F)) :=
  emit (EvCall (CallFindTaskByTitle project_id title)) ;;;
  items <- list_tasks self project_id ;;
  elems <- lift (py_iter items) ;;
  log INFO (LogSearching (List.length elems) title) ;;;
  scan_tasks elems title.

End Client.

(* ================================================================== *)
(** ** Orchestrator *)

Section Orchestrator.

Context {F : Type} {RT : PyRuntime F}.
Variable cfg : Config F.
Variable clk : Clock.
Variable net : network F.

(** [str(d.get("id") or d.get("task_id") or "")] *)
Definition id_of (d : pyval F) : result string :=
  match py_get d "id" with
  | Raise e => Raise e
  | Ok a =>
      if py_truthy a then Ok (py_str a)
      else
        match py_get d "task_id" with
        | Raise e => Raise e
        | Ok b => Ok (py_str (py_or b (VStr "")))
        end
  end.

Definition print_task_id (task_id : string) : M F unit :=
  emit (EvPrintJson (VDict [("TASKADE_TASK_ID", VStr task_id)])).

(** From the comment [Create new task if not found] to the [return 0]
    that ends the [try] block. *)
Definition create_new (client : TaskadeClient) (content_md : string)
  : M F Z :=
  log INFO LogCreatingNew ;;;
  created <- create_task cfg net client (TASKADE_PROJECT_ID cfg) content_md
               (Some DASHBOARD_TITLE) ;;
  new_id <- lift (id_of created) ;;
  (if PyStr.truthy new_id then
     log INFO (LogCreatedId new_id) ;;; print_task_id new_id
   else log WARNING LogCreatedNoId) ;;;
  ret 0%Z.

(** The statements of [main] from the computation of [task_id] on. *)
Definition upsert (client : TaskadeClient) (content_md : string) : M F Z :=
  let task_id :=
    if PyStr.truthy (TASKADE_TASK_ID cfg)
    then str_strip (TASKADE_TASK_ID cfg) else "" in
  if PyStr.truthy task_id then
    log INFO (LogUpdatingExisting task_id) ;;;
    update_task cfg net client task_id content_md ;;;
    log INFO LogUpdateComplete ;;;
    ret 0%Z
  else
    log INFO (LogSearchingExisting DASHBOARD_TITLE (TASKADE_PROJECT_ID cfg)) ;;;
    existing <- find_task_by_title cfg net client (TASKADE_PROJECT_ID cfg)
                  DASHBOARD_TITLE ;;
    match existing with
    | Some it =>
        if py_truthy it then
          discovered_id <- lift (id_of it) ;;
          if negb (PyStr.truthy discovered_id) then
            log WARNING LogFoundNoId ;;;
            create_new client content_md
          else
            log INFO (LogFoundExisting discovered_id) ;;;
            update_task cfg net client discovered_id content_md ;;;
            print_task_id discovered_id ;;;
            ret 0%Z
        else create_new client content_md
    | None => create_new client content_md
    end.

(** The body of the [try] block of [main]. *)
Definition main_body : M F Z :=
  client <- lift (new_client TASKADE_BASE_URL (TASKADE_API_TOKEN cfg)) ;;
  log INFO LogStart ;;;
  feed <- fetch_gtfs_realtime_feed cfg net GTFSR_URL ;;
  let '(feed_ts, vehicles) := parse_feed feed in
  let content_md := format_markdown clk feed_ts vehicles in
  upsert client content_md.

(** The three [except] clauses of [main]. *)
Definition on_error (e : exn) : M F Z :=
  if is_RequestException e then
    log ERROR (LogApiError e) ;;;
    match e with
    | HTTPError _ (Some body) => log ERROR (LogErrorResponse body)
    | _ => ret tt
    end ;;;
    ret 1%Z
  else if is_KeyError e then
    log ERROR (LogUnexpectedStructure e) ;;;
    log ERROR LogCheckDebug ;;;
    ret 1%Z
  else
    log ERROR (LogUnexpected e) ;;;
    ret 1%Z.

Definition main : M F Z :=
  if negb (PyStr.truthy (TASKADE_PROJECT_ID cfg)) then
    log ERROR LogProjectRequired ;;; ret 2%Z
  else if negb (PyStr.truthy (TASKADE_API_TOKEN cfg)) then
    log ERROR LogTokenRequired ;;; ret 2%Z
  else catch main_body on_error.

Definition initial : state F := {| sent := 0; trace := [] |}.

(** One run of the process: the exit status and the trace. *)
Definition run : result Z * state F := main initial.

(** The client [main] builds. *)
Definition the_client : TaskadeClient :=
  {| base := TASKADE_BASE_URL; token := TASKADE_API_TOKEN cfg |}.

(** The request [create_task] sends for the dashboard. *)
Definition create_request (client : TaskadeClient) (content_md : string)
  : request F :=
  {| req_method := "POST";
     req_url := base client ++ "/projects/" ++ TASKADE_PROJECT_ID cfg ++ "/tasks";
     req_headers := headers client;
     req_json := Some (create_payload content_md (Some DASHBOARD_TITLE));
     req_timeout := HTTP_TIMEOUT cfg |}.

(** The run started in [s0] takes the create branch: the rest of its [try]
    block is [create_new], entered in state [st] with the report
    [content_md]. *)
Definition takes_create_branch (s0 : state F) (client : TaskadeClient)
           (content_md : string) (st : state F) : Prop :=
  main_body s0 = create_new client content_md st.

(** The state in which [create_task], called from [create_new] in state
    [st], sends its request. *)
Definition at_create_request (client : TaskadeClient) (content_md : string)
           (st : state F) : state F :=
  push (EvLog INFO (LogCreating (req_url (create_request client content_md))))
    (push (EvCall (CallCreateTask (TASKADE_PROJECT_ID cfg) content_md
                                  DASHBOARD_TITLE))
       (push (EvLog INFO LogCreatingNew) st)).

End Orchestrator.

(** ** Observations on traces *)

Section Observations.

Context {F : Type}.

Definition is_request (ev : event F) : bool :=
  match ev with EvRequest _ => true | _ => false end.

Definition is_update (c : client_call) : bool :=
  match c with CallUpdateTask _ _ => true | _ => false end.

Definition is_create (c : client_call) : bool :=
  match c with CallCreateTask _ _ _ => true | _ => false end.

Definition is_find (c : client_call) : bool :=
  match c with CallFindTaskByTitle _ _ => true | _ => false end.

Definition count (p : event F -> bool) (tr : list (event F)) : nat :=
  List.length (filter p tr).

End Observations.

(** The method entries recorded in a trace, in order. *)
Fixpoint calls_of {F : Type} (tr : list (event F)) : list client_call :=
  match tr with
  | [] => []
  | EvCall c :: r => c :: calls_of r
  | _ :: r => calls_of r
  end.

(** A computation that enters no method of the client. *)
Definition silent {F : Type} {A : Type} (m : M F A) : Prop :=
  forall st, calls_of (trace (snd (m st))) = calls_of (trace st).

(** The error an attempt of [http_request] ends with, if it fails. *)
Definition failure_of {F : Type} (o : outcome F) : option exn :=
  match o with
  | Failed e => Some e
  | Returned r =>
      if (status_code r >=? 500)%Z
      then Some (HTTPError (server_error_msg r) None)
      else None
  end.

(** What the [i]-th failed attempt (counted from 0) appends to the
    trace. *)
Definition failed_attempt {F : Type} (cfg : Config F) (req : request F)
           (err : nat -> exn) (delay : nat -> F) (i : nat) : list (event F) :=
  [EvRequest req;
   EvLog WARNING (LogRetry (req_method req) (req_url req)
                           (Z.of_nat i + 1) (MAX_RETRIES cfg)
                           (err i) (delay i));
   EvSleep (delay i)].

(** The blocks of a report, one after the other. *)
Fixpoint concat_blocks (blocks : list string) : string :=
  match blocks with
  | [] => ""
  | b :: r => b ++ concat_blocks r
  end.

Section Matching.

Context {F : Type} {RT : PyRuntime F}.

(** The loop of [find_task_by_title] passes over [x]: its title is read
    without error and passes neither test. *)
Definition no_match (title : string) (x : pyval F) : Prop :=
  exists t, item_title x = Ok t
            /\ exact_match t title = false /\ keyword_match t = false.

(** The loop of [find_task_by_title] stops at [x]: its title is read without
    error and passes one of the two tests. *)
Definition some_match (title : string) (x : pyval F) : Prop :=
  exists t, item_title x = Ok t
            /\ (exact_match t title = true \/ keyword_match t = true).

(** A task item whose field [title] is absent or [None]. *)
Definition untitled (x : pyval F) : Prop :=
  exists kvs, x = VDict kvs
              /\ (dict_get kvs "title" = None \/ dict_get kvs "title" = Some VNone).

(** The following five definitions state the search in the words of its
    description, over the primitives of Python only (dict lookup, truth
    value, [lower], [strip], concatenation); the theorems compare them with
    the loop of [find_task_by_title]. *)

(** [token in s] *)
Definition has_token (token s : string) : Prop :=
  exists a b, s = a ++ token ++ b.

(** The title [t] of an item equals the search title case-insensitively, or
    contains the three keyword tokens case-insensitively. *)
Definition title_passes (title t : string) : Prop :=
  str_lower t = str_lower title
  \/ (has_token "ktm" (str_lower t)
      /\ has_token "status" (str_lower t)
      /\ has_token "update" (str_lower t)).

(** The item [x] is a dict and [t] is its title: the stripped value of its
    field [title] when that is a string, the empty string when the field is
    absent or falsy. *)
Definition reads_title (x : pyval F) (t : string) : Prop :=
  exists kvs,
    x = VDict kvs
    /\ ((exists s, dict_get kvs "title" = Some (VStr s) /\ t = str_strip s)
        \/ ((dict_get kvs "title" = None
             \/ exists v, dict_get kvs "title" = Some v /\ py_truthy v = false)
            /\ t = "")).

(** The item has a title and the title passes neither test. *)
Definition passed_over (title : string) (x : pyval F) : Prop :=
  exists u, reads_title x u /\ ~ title_passes title u.

(** The item has no title to read: it is not a dict, or its field [title] is
    truthy and not a string. *)
Definition unreadable (x : pyval F) : Prop :=
  (forall kvs, x <> VDict kvs)
  \/ exists kvs v,
      x = VDict kvs /\ dict_get kvs "title" = Some v
      /\ py_truthy v = true /\ forall s, v <> VStr s.

End Matching.

(** ** Further observations *)

Section MoreObservations.

Context {F : Type} {RT : PyRuntime F}.

(** The entities of a feed that carry vehicle data, in feed order. *)
Fixpoint vehicles_of (es : list (FeedEntity F)) : list (VehiclePosition F) :=
  match es with
  | [] => []
  | e :: r =>
      match vehicle e with
      | Some v => v :: vehicles_of r
      | None => vehicles_of r
      end
  end.

(** The keys of a vehicle record, in insertion order. *)
Definition record_keys : list string :=
  ["vehicle_id"; "route_id"; "lat"; "lon"; "speed_kmh"].

(** The request [fetch_gtfs_realtime_feed] sends. *)
Definition feed_request (cfg : Config F) (url : string) : request F :=
  {| req_method := "GET"; req_url := url; req_headers := [];
     req_json := None; req_timeout := HTTP_TIMEOUT cfg |}.

(** [raise_for_status] raises for this status. *)
Definition is_error_status (sc : Z) : bool :=
  (400 <=? sc)%Z && (sc <? 600)%Z.

(** The request [update_task] sends. *)
Definition update_request (cfg : Config F) (client : TaskadeClient)
           (task_id content_md : string) : request F :=
  {| req_method := "PUT";
     req_url := base client ++ "/tasks/" ++ task_id;
     req_headers := headers client;
     req_json := Some (VDict [("content", VStr content_md)]);
     req_timeout := HTTP_TIMEOUT cfg |}.

(** The request [list_tasks] sends. *)
Definition list_request (cfg : Config F) (client : TaskadeClient)
           (project_id : string) : request F :=
  {| req_method := "GET";
     req_url := base client ++ "/projects/" ++ project_id ++ "/tasks";
     req_headers := headers client;
     req_json := None;
     req_timeout := HTTP_TIMEOUT cfg |}.

(** A decoded listing from which [list_tasks] returns the empty list: neither
    a list nor a dict with the key ["items"]. *)
Definition unlisted (data : pyval F) : bool :=
  match data with
  | VList _ => false
  | VDict kvs => match dict_get kvs "items" with Some _ => false | None => true end
  | _ => true
  end.

End MoreObservations.

(** A computation that enters exactly the methods [cs], in order, whatever
    its outcome. *)
Definition enters {F : Type} {A : Type} (m : M F A) (cs : list client_call)
  : Prop :=
  forall st, calls_of (trace (snd (m st))) = (calls_of (trace st) ++ cs)%list.

(* ================================================================== *)
(** ** A runtime with exact decimal arithmetic, and concrete runs *)

Module Exact.

Definition pow10 (n : Z) : Z := (10 ^ n)%Z.

(** Rounding to [n >= 0] decimal digits, ties to even. *)
Definition round (x : Q) (n : Z) : Q :=
  let s := pow10 (Z.max 0 n) in
  let num := (Qnum x * s)%Z in
  let den := Zpos (Qden x) in
  let fl := (num / den)%Z in
  let r2 := (2 * (num mod den))%Z in
  let up := if (r2 <? den)%Z then false
            else if (den <? r2)%Z then true
            else negb (Z.even fl) in
  Qred (Qmake (if up then fl + 1 else fl)%Z (Z.to_pos s)).

Fixpoint frac_digits (fuel : nat) (r d : Z) : string :=
  match fuel with
  | O => ""
  | S k =>
      PyStr.of_Z (r * 10 / d)
        ++ (if ((r * 10) mod d =? 0)%Z then ""
            else frac_digits k ((r * 10) mod d) d)
  end.

Definition str (x : Q) : string :=
  let n := Z.abs (Qnum x) in
  let d := Zpos (Qden x) in
  (if (Qnum x <? 0)%Z then "-" else "")
    ++ PyStr.of_Z (n / d) ++ "." ++ frac_digits 17 (n mod d) d.

Fixpoint join (sep : string) (l : list string) : string :=
  match l with
  | [] => ""
  | [x] => x
  | x :: r => x ++ sep ++ join sep r
  end.

Fixpoint repr (v : pyval Q) : string :=
  match v with
  | VNone => "None"
  | VBool true => "True"
  | VBool false => "False"
  | VInt n => PyStr.of_Z n
  | VFloat x => str x
  | VStr s => "'" ++ s ++ "'"
  | VList l => "[" ++ join ", " (map repr l) ++ "]"
  | VDict kvs =>
      "{" ++ join ", " (map (fun kv => "'" ++ fst kv ++ "': " ++ repr (snd kv)) kvs)
        ++ "}"
  end.

(** Beyond this bound [x ** n] raises [OverflowError]. *)
Definition double_range : Q := inject_Z (2 ^ 1024).

(** The longest delay [time.sleep] accepts, in seconds (2^63 ns). *)
Definition sleep_range : Q := inject_Z 9223372036.

(** Only the empty string is lowered to the empty string. *)
Definition lower_nonempty (s : string) : PyStr.lower s = "" -> s = "" :=
  match s with
  | EmptyString => fun _ => eq_refl
  | String c r =>
      fun H =>
        False_ind _
          (eq_ind (String (PyStr.lower_ascii c) (PyStr.lower r))
                  (fun e => match e with
                            | EmptyString => False
                            | String _ _ => True
                            end)
                  I EmptyString H)
  end.

#[export] Instance runtime : PyRuntime Q := {|
  f_zero := 0%Q;
  f_3_6 := (36 # 10)%Q;
  f_mul := fun x y => Qred (x * y);
  f_round := round;
  f_pow := fun x n =>
    let r := Qred (Qpower x n) in
    if Qle_bool (Qmake (Z.abs (Qnum r)) (Qden r)) double_range
    then Some r else None;
  f_nonzero := fun x => negb (Qeq_bool x 0);
  f_str := str;
  sleep_raises := fun x =>
    if (Qnum x <? 0)%Z
    then Some (ValueError "sleep length must be non-negative")
    else if Qle_bool x sleep_range then None else Some OverflowError;
  container_str := repr;
  str_lower := PyStr.lower;
  str_strip := PyStr.strip;
  str_lower_empty := eq_refl;
  str_lower_nonempty := lower_nonempty;
  str_strip_empty := eq_refl
|}.

Definition cfg0 : Config Q :=
  {| TASKADE_API_TOKEN := "tok"; TASKADE_PROJECT_ID := "proj";
     TASKADE_TASK_ID := ""; HTTP_TIMEOUT := 20; MAX_RETRIES := 3;
     RETRY_BACKOFF := (3 # 2)%Q |}.

Definition clk0 : Clock :=
  {| now_text := "2025-01-01 08:00:00 +08";
     local_time_text := fun _ => None |}.

Definition client0 : TaskadeClient :=
  {| base := TASKADE_BASE_URL; token := "tok" |}.

Definition with_feed (feed : FeedMessage Q) : response Q :=
  {| status_code := 200; reason := "OK"; text := "";
     json_body := None; content_feed := Some feed |}.

Definition with_json (sc : Z) (v : pyval Q) : response Q :=
  {| status_code := sc; reason := "OK"; text := "";
     json_body := Some v; content_feed := None |}.

Definition with_status (sc : Z) : response Q :=
  {| status_code := sc; reason := ""; text := "";
     json_body := None; content_feed := None |}.

Definition empty_feed : FeedMessage Q :=
  {| header := {| timestamp := None |}; entity := [] |}.

(** The network answers the calls of a run with the listed outcomes, in
    order, and with a connection error once the list is used up. *)
Definition scripted (l : list (outcome Q)) : network Q :=
  fun n _ => nth n l (Failed (RequestException "ConnectionError")).

(** The feed of the two-entity scenario: one vehicle with a full
    position, one without a position. *)
Definition two_entities : FeedMessage Q :=
  {| header := {| timestamp := Some 1700000000%Z |};
     entity :=
       [ {| vehicle := Some
              {| trip := Some {| route_id := Some "R1" |};
                 vehicle_descriptor := Some {| vehicle_id := Some "T1" |};
                 position := Some {| latitude := (31234567 # 10000000)%Q;
                                     longitude := (1016 # 10)%Q;
                                     speed := Some (10 # 1)%Q |} |} |};
         {| vehicle := Some
              {| trip := None;
                 vehicle_descriptor := Some {| vehicle_id := Some "T2" |};
                 position := None |} |} ] |}.


Definition keyword_item : pyval Q :=
  VDict [("id", VStr "a"); ("title", VStr "KTM status update notes")].

Definition exact_item : pyval Q :=
  VDict [("id", VStr "b"); ("title", VStr "KTM Train Status Live Update")].

Definition net_keyword_then_exact : network Q :=
  scripted [Returned (with_json 200 (VList [keyword_item; exact_item]))].

Definition item_without_id : pyval Q :=
  VDict [("title", VStr "KTM Train Status Live Update")].

Definition net_found_without_id : network Q :=
  scripted [Returned (with_feed empty_feed);
            Returned (with_json 200 (VList [item_without_id]));
            Returned (with_json 200
               (VDict [("item", VList [VDict [("id", VStr "new1")]])]))].

(** The run in which the search finds the dashboard task without an
    identifier. *)
Definition found_without_id_run : result Z * state Q :=
  run cfg0 clk0 net_found_without_id.

Definition cfg_known_id : Config Q :=
  {| TASKADE_API_TOKEN := "tok"; TASKADE_PROJECT_ID := "proj";
     TASKADE_TASK_ID := " abc "; HTTP_TIMEOUT := 20; MAX_RETRIES := 3;
     RETRY_BACKOFF := (3 # 2)%Q |}.

Definition net_update_404 : network Q :=
  scripted [Returned (with_feed empty_feed); Returned (with_status 404)].

Definition net_update_204 : network Q :=
  scripted [Returned (with_feed empty_feed); Returned (with_status 204)].

Definition net_down : network Q := scripted [].

Definition cfg_no_token : Config Q :=
  {| TASKADE_API_TOKEN := ""; TASKADE_PROJECT_ID := "proj";
     TASKADE_TASK_ID := ""; HTTP_TIMEOUT := 20; MAX_RETRIES := 3;
     RETRY_BACKOFF := (3 # 2)%Q |}.

(** A positive back-off factor whose second delay [time.sleep] rejects. *)
Definition cfg_huge_backoff : Config Q :=
  {| TASKADE_API_TOKEN := "tok"; TASKADE_PROJECT_ID := "proj";
     TASKADE_TASK_ID := ""; HTTP_TIMEOUT := 20; MAX_RETRIES := 3;
     RETRY_BACKOFF := inject_Z (10 ^ 200) |}.

Definition net_always_503 : network Q :=
  fun _ _ => Returned (with_status 503).

Definition net_503_then_404 : network Q :=
  scripted [Returned (with_status 503); Returned (with_status 404)].

Definition item_without_title : pyval Q := VDict [("id", VStr "x")].

Definition net_untitled : network Q :=
  scripted [Returned (with_json 200 (VList [item_without_title]))].

Definition get_request : request Q :=
  {| req_method := "GET"; req_url := "u"; req_headers := [];
     req_json := None; req_timeout := 20 |}.

Definition cfg_no_retries : Config Q :=
  {| TASKADE_API_TOKEN := "tok"; TASKADE_PROJECT_ID := "proj";
     TASKADE_TASK_ID := ""; HTTP_TIMEOUT := 20; MAX_RETRIES := 0;
     RETRY_BACKOFF := (3 # 2)%Q |}.

Definition cfg_negative_backoff : Config Q :=
  {| TASKADE_API_TOKEN := "tok"; TASKADE_PROJECT_ID := "proj";
     TASKADE_TASK_ID := ""; HTTP_TIMEOUT := 20; MAX_RETRIES := 3;
     RETRY_BACKOFF := (-3 # 2)%Q |}.

Definition net_404 : network Q := scripted [Returned (with_status 404)].

Definition net_create_null_id : network Q :=
  scripted [Returned (with_feed empty_feed);
            Returned (with_json 200 (VList []));
            Returned (with_json 201
               (VDict [("item", VList [VDict [("id", VNone)]])]))].

Definition net_found_with_id : network Q :=
  scripted [Returned (with_feed empty_feed);
            Returned (with_json 200 (VDict [("items", VList [exact_item])]));
            Returned (with_status 200)].

Definition net_listing_scalar : network Q :=
  scripted [Returned (with_json 200 (VInt 7))].

Definition net_listing_dict : network Q :=
  scripted [Returned (with_json 200
              (VDict [("items", VList [keyword_item; exact_item])]))].

End Exact.

(* ================================================================== *)
(** * Properties *)

(** ** Strings *)

Lemma append_assoc (a b c : string) : (a ++ b) ++ c = a ++ (b ++ c).
Proof.
  induction a as [|ch a IH]; simpl; [reflexivity | now rewrite IH].
Qed.

Lemma append_empty_r (s : string) : s ++ "" = s.
Proof. induction s; simpl; congruence. Qed.

Lemma concat_blocks_concat (l : list string) :
  concat_blocks l = String.concat "" l.
Proof.
  induction l as [|x l IH]; [reflexivity|]. simpl. rewrite IH.
  destruct l; [apply append_empty_r | reflexivity].
Qed.

Section Properties.

Context {F : Type} {RT : PyRuntime F}.

(** ** Report renderer *)

Lemma fold_blocks (vs : list (list (string * pyval F))) (acc : string) :
  fold_left (fun a v => a ++ vehicle_block v) vs acc
  = acc ++ concat_blocks (map vehicle_block vs).
Proof.
  revert acc; induction vs as [|v vs IH]; intros acc; simpl.
  - clear; induction acc; simpl; congruence.
  - rewrite IH, append_assoc. reflexivity.
Qed.

(** The report as the lines it is built from. *)
Lemma format_markdown_lines (clk : Clock) (feed_ts : option Z)
      (vehicles : list (list (string * pyval F))) :
  format_markdown clk feed_ts vehicles
  = title_line
      ++ last_updated_line (resolve_last_updated clk feed_ts)
      ++ match vehicles with
         | [] => no_trains_line
         | _ :: _ =>
             count_line (List.length vehicles)
               ++ concat_blocks (map vehicle_block vehicles)
         end.
Proof.
  unfold format_markdown.
  destruct vehicles as [|v vs].
  - simpl. now rewrite append_assoc.
  - cbv zeta. change (List.length (v :: vs) =? 0)%nat with false. cbv iota.
    rewrite fold_blocks. now rewrite !append_assoc.
Qed.

(** C7. For every timestamp and record sequence the report is, character
    for character: the title line and the "last updated" line (with the feed
    time, or the current time when the feed has none or it cannot be
    converted), each followed by an empty line, and then, for an empty
    sequence, the line "No active trains detected at the moment." and nothing
    else; otherwise the line "Found **n** active trains." with [n] the number
    of records, an empty line, and one block per record, in input order and
    without truncation, each made of the identifier and route line, the
    coordinates line and the speed line of its record. *)
Theorem format_markdown_layout (clk : Clock) (feed_ts : option Z)
        (vehicles : list (list (string * pyval F))) :
  let LF := String "010"%char "" in
  let last_updated :=
    match feed_ts with
    | None => now_text clk
    | Some t =>
        match local_time_text clk t with
        | Some s => s
        | None => now_text clk
        end
    end in
  let field := fun (v : list (string * pyval F)) (key : string) =>
    py_str (match dict_get v key with Some x => x | None => VStr "Unknown" end) in
  let block := fun v =>
    "  - **Train ID:** " ++ field v "vehicle_id"
      ++ " | **Route:** " ++ field v "route_id" ++ LF
      ++ "    - **Location:** `" ++ field v "lat" ++ ", " ++ field v "lon"
      ++ "`" ++ LF
      ++ "    - **Speed:** " ++ field v "speed_kmh" ++ " km/h" ++ LF in
  format_markdown clk feed_ts vehicles
  = String "239"%char (String "163"%char (String "191"%char
      (String "195"%char (String "188"%char (String "195"%char
        (String "182"%char (String "195"%char (String "165"%char
          " **KTM Train Status Live Update**"))))))))
      ++ LF ++ LF
      ++ "*Last updated: " ++ last_updated ++ "*" ++ LF ++ LF
      ++ match vehicles with
         | [] => "No active trains detected at the moment."
         | _ :: _ =>
             "Found **"
               ++ NilEmpty.string_of_uint (Nat.to_uint (List.length vehicles))
               ++ "** active trains." ++ LF ++ LF
               ++ String.concat "" (map block vehicles)
         end.
Proof.
  intros LF last_updated field block.
  rewrite format_markdown_lines, concat_blocks_concat.
  assert (Hlu : resolve_last_updated clk feed_ts = last_updated) by reflexivity.
  rewrite Hlu.
  assert (Hmap : map vehicle_block vehicles = map block vehicles).
  { apply map_ext. intros v. reflexivity. }
  rewrite Hmap.
  unfold title_line, last_updated_line, count_line, no_trains_line.
  rewrite !append_assoc. reflexivity.
Qed.

(** ** Record extractor *)

(** With a position, the record holds the rounded coordinates and the speed
    converted to km/h; an unset speed reads as [0.0]. *)
Lemma vehicle_record_with_position (t : option TripDescriptor)
      (d : option VehicleDescriptor) (p : Position F) :
  let r := vehicle_record {| trip := t; vehicle_descriptor := d;
                             position := Some p |} in
  dict_get r "lat" = Some (VFloat (f_round (latitude p) 6))
  /\ dict_get r "lon" = Some (VFloat (f_round (longitude p) 6))
  /\ dict_get r "speed_kmh"
     = Some (VFloat (f_round (f_mul (match speed p with
                                     | Some s => s
                                     | None => f_zero
                                     end) f_3_6) 2)).
Proof. cbv zeta. repeat split. Qed.

(** Entities are kept in feed order and those without vehicle data are
    skipped. *)
Lemma parse_entities_app (a b : list (FeedEntity F)) :
  parse_entities (a ++ b) = (parse_entities a ++ parse_entities b)%list.
Proof.
  induction a as [|e a IH]; [reflexivity|]. simpl.
  destruct (vehicle e); simpl; now rewrite IH.
Qed.

(** C4. An entity that has vehicle data but no position sub-message gets the
    numbers computed from the default position [0.0, 0.0, 0.0] as latitude,
    longitude and speed, and none of the three is the "Unknown" marker. *)
Theorem missing_position_is_not_unknown (h : FeedHeader)
        (t : option TripDescriptor) (d : option VehicleDescriptor) :
  let v := {| trip := t; vehicle_descriptor := d; position := None |} in
  let r := vehicle_record v in
  snd (parse_feed {| header := h;
                     entity := [ {| vehicle := Some v |} ] |}) = [r]
  /\ dict_get r "lat" = Some (VFloat (f_round f_zero 6))
  /\ dict_get r "lon" = Some (VFloat (f_round f_zero 6))
  /\ dict_get r "speed_kmh" = Some (VFloat (f_round (f_mul f_zero f_3_6) 2))
  /\ dict_get r "lat" <> Some sentinel
  /\ dict_get r "lon" <> Some sentinel
  /\ dict_get r "speed_kmh" <> Some sentinel.
Proof.
  cbv zeta. repeat split; try reflexivity; discriminate.
Qed.

End Properties.
Section TitleSearch.

Context {F : Type} {RT : PyRuntime F}.
Variable cfg : Config F.
Variable net : network F.

Ltac run_monad :=
  unfold bind, ret, raise, log, emit, lift, catch in *; simpl in *.

(** The result of the loop depends on the state only through the log. *)
Lemma scan_tasks_cons (it : pyval F) (rest : list (pyval F)) (title : string)
      (st : state F) :
  fst (scan_tasks (it :: rest) title st)
  = match item_title it with
    | Raise e => Raise e
    | Ok t =>
        if exact_match t title || keyword_match t then Ok (Some it)
        else fst (scan_tasks rest title (push (EvLog INFO (LogFoundTitle t)) st))
    end.
Proof.
  simpl. run_monad.
  destruct (item_title it) as [t|e]; simpl; [|reflexivity].
  destruct (exact_match t title); simpl; [reflexivity|].
  destruct (keyword_match t); reflexivity.
Qed.

Lemma scan_tasks_state_irrelevant (items : list (pyval F)) (title : string)
      (st st' : state F) :
  fst (scan_tasks items title st) = fst (scan_tasks items title st').
Proof.
  revert st st'; induction items as [|it rest IH]; intros st st'.
  - reflexivity.
  - rewrite !scan_tasks_cons.
    destruct (item_title it) as [t|e]; [|reflexivity].
    destruct (exact_match t title || keyword_match t); [reflexivity|].
    apply IH.
Qed.

Lemma scan_tasks_found (items : list (pyval F)) (title : string)
      (st : state F) (it : pyval F) :
  fst (scan_tasks items title st) = Ok (Some it)
  <-> exists pre post,
        items = (pre ++ it :: post)%list
        /\ Forall (no_match title) pre /\ some_match title it.
Proof.
  revert st; induction items as [|x rest IH]; intros st.
  - split.
    + discriminate.
    + intros (pre & post & H & _). destruct pre; discriminate.
  - rewrite scan_tasks_cons. split.
    + destruct (item_title x) as [t|e] eqn:Ht; [|discriminate].
      destruct (exact_match t title || keyword_match t) eqn:Hm.
      * intros H. injection H as <-. exists [], rest.
        split; [reflexivity|]. split; [constructor|].
        exists t. split; [assumption|]. now apply orb_true_iff.
      * intros H. apply IH in H. destruct H as (pre & post & -> & Hpre & Hit).
        exists (x :: pre), post. split; [reflexivity|]. split; [|assumption].
        constructor; [|assumption].
        exists t. apply orb_false_iff in Hm. tauto.
    + intros (pre & post & Heq & Hpre & Hit).
      destruct pre as [|y pre]; simpl in Heq; injection Heq as -> ->.
      * destruct Hit as (t & -> & Hm).
        apply orb_true_iff in Hm. now rewrite Hm.
      * inversion Hpre as [|? ? (t & Ht & He & Hk) Hpre']; subst.
        rewrite Ht, He, Hk. simpl.
        apply IH. exists pre, post. auto.
Qed.

Lemma scan_tasks_none (items : list (pyval F)) (title : string)
      (st : state F) :
  fst (scan_tasks items title st) = Ok None
  <-> Forall (no_match title) items.
Proof.
  revert st; induction items as [|x rest IH]; intros st.
  - split; [constructor | reflexivity].
  - rewrite scan_tasks_cons. split.
    + destruct (item_title x) as [t|e] eqn:Ht; [|discriminate].
      destruct (exact_match t title || keyword_match t) eqn:Hm; [discriminate|].
      intros H. apply IH in H. constructor; [|assumption].
      exists t. apply orb_false_iff in Hm. tauto.
    + intros H. inversion H as [|? ? (t & Ht & He & Hk) Hrest]; subst.
      rewrite Ht, He, Hk. simpl. now apply IH.
Qed.

(** When the listing is a list, the search is the loop over its elements. *)
Lemma find_task_by_title_scan (self : TaskadeClient) (project title : string)
      (st st1 : state F) (items : list (pyval F)) :
  list_tasks cfg net self project
             (push (EvCall (CallFindTaskByTitle project title)) st)
  = (Ok (VList items), st1) ->
  find_task_by_title cfg net self project title st
  = scan_tasks items title
               (push (EvLog INFO (LogSearching (List.length items) title)) st1).
Proof.
  intros H. unfold find_task_by_title.
  unfold bind at 1. unfold emit at 1.
  unfold bind at 1. rewrite H. reflexivity.
Qed.

Lemma scan_tasks_raises (items : list (pyval F)) (title : string)
      (st : state F) (e : exn) :
  fst (scan_tasks items title st) = Raise e
  <-> exists pre x post,
        items = (pre ++ x :: post)%list
        /\ Forall (no_match title) pre /\ item_title x = Raise e.
Proof.
  revert st; induction items as [|y rest IH]; intros st.
  - split.
    + discriminate.
    + intros (pre & x & post & H & _). destruct pre; discriminate.
  - rewrite scan_tasks_cons. split.
    + destruct (item_title y) as [t|e'] eqn:Ht.
      * destruct (exact_match t title || keyword_match t) eqn:Hm; [discriminate|].
        intros H. apply IH in H.
        destruct H as (pre & x & post & -> & Hpre & Hx).
        exists (y :: pre), x, post. split; [reflexivity|]. split; [|assumption].
        constructor; [|assumption].
        exists t. apply orb_false_iff in Hm. tauto.
      * intros H. injection H as <-. exists [], y, rest.
        split; [reflexivity|]. split; [constructor | assumption].
    + intros (pre & x & post & Heq & Hpre & Hx).
      destruct pre as [|z pre]; simpl in Heq; injection Heq as -> ->.
      * now rewrite Hx.
      * inversion Hpre as [|? ? (t & Ht & He & Hk) Hpre']; subst.
        rewrite Ht, He, Hk. simpl.
        apply IH. exists pre, x, post. auto.
Qed.

Lemma prefix_iff (n h : string) :
  prefix n h = true <-> exists b, h = n ++ b.
Proof.
  revert h; induction n as [|c n IH]; intros h.
  - split; [intros _; now exists h | intros _; destruct h; reflexivity].
  - destruct h as [|d h]; simpl.
    + split; [discriminate | intros (b & H); discriminate].
    + destruct (ascii_dec c d) as [->|Hne].
      * rewrite IH. split; intros (b & H); exists b.
        -- now rewrite H.
        -- now injection H.
      * split; [discriminate|]. intros (b & H). injection H as H _.
        congruence.
Qed.

Lemma contains_iff (n h : string) :
  PyStr.contains n h = true <-> has_token n h.
Proof.
  unfold has_token. induction h as [|c h IH]; cbn [PyStr.contains].
  - rewrite orb_false_r, prefix_iff. split.
    + intros (b & H). now exists "", b.
    + intros (a & b & H). destruct a; [now exists b|discriminate].
  - rewrite orb_true_iff, prefix_iff, IH. split.
    + intros [(b & H) | (a & b & H)].
      * now exists "", b.
      * exists (String c a), b. simpl. now rewrite H.
    + intros (a & b & H). destruct a as [|c' a].
      * left. now exists b.
      * right. simpl in H. injection H as _ H. now exists a, b.
Qed.

Lemma passes_iff (title t : string) :
  exact_match t title || keyword_match t = true <-> title_passes title t.
Proof.
  unfold exact_match, keyword_match, title_passes.
  rewrite orb_true_iff, !andb_true_iff, String.eqb_eq, !contains_iff.
  tauto.
Qed.

Lemma item_title_reads (x : pyval F) (t : string) :
  item_title x = Ok t <-> reads_title x t.
Proof.
  unfold reads_title, item_title. split.
  - destruct x as [| | | | | |kvs]; try discriminate.
    unfold py_get, dict_get_default, py_or.
    intros H. exists kvs. split; [reflexivity|].
    destruct (dict_get kvs "title") as [v|].
    + destruct (py_truthy v) eqn:Hv.
      * destruct v; try discriminate. cbn in H. injection H as <-.
        left. eauto.
      * cbn in H. rewrite str_strip_empty in H. injection H as <-.
        right. split; [right; eauto | reflexivity].
    + cbn in H. rewrite str_strip_empty in H. injection H as <-.
      right. split; [now left | reflexivity].
  - intros (kvs & -> & [(s & Hs & ->) | ([Hn | (v & Hv & Hf)] & ->)]);
      unfold py_get, dict_get_default, py_or.
    + rewrite Hs. destruct s as [|c s]; cbn; [|reflexivity].
      now rewrite str_strip_empty.
    + rewrite Hn. cbn. now rewrite str_strip_empty.
    + rewrite Hv, Hf. cbn. now rewrite str_strip_empty.
Qed.

Lemma item_title_unreadable (x : pyval F) (e : exn) :
  item_title x = Raise e <-> e = AttributeError /\ unreadable x.
Proof.
  unfold unreadable, item_title. split.
  - destruct x as [| | | | | |kvs];
      try (intros H; injection H as <-; split; [reflexivity|];
           left; intros kvs; discriminate).
    unfold py_get, dict_get_default, py_or.
    destruct (dict_get kvs "title") as [v|] eqn:Hget.
    + destruct (py_truthy v) eqn:Hv; [|discriminate].
      destruct v; try discriminate;
        (intros H; injection H as <-; split; [reflexivity|];
         right; do 2 eexists; split; [reflexivity|];
         split; [exact Hget|]; split; [exact Hv|]; intros s; discriminate).
    + discriminate.
  - intros (-> & [Hnd | (kvs & v & -> & Hget & Hv & Hns)]).
    + destruct x as [| | | | | |kvs]; try reflexivity.
      exfalso. now apply (Hnd kvs).
    + unfold py_get, dict_get_default, py_or. rewrite Hget, Hv.
      destruct v; try reflexivity. exfalso. now apply (Hns s).
Qed.

Lemma no_match_iff (title : string) (x : pyval F) :
  no_match title x <-> passed_over title x.
Proof.
  unfold no_match, passed_over. split.
  - intros (t & Ht & He & Hk). exists t. split; [now apply item_title_reads|].
    rewrite <- passes_iff, He, Hk. discriminate.
  - intros (t & Ht & Hn). exists t. split; [now apply item_title_reads|].
    rewrite <- passes_iff in Hn.
    destruct (exact_match t title); [exfalso; now apply Hn|].
    destruct (keyword_match t); [exfalso; now apply Hn|]. auto.
Qed.

Lemma Forall_no_match_iff (title : string) (l : list (pyval F)) :
  Forall (no_match title) l <-> Forall (passed_over title) l.
Proof.
  split; apply Forall_impl; intros x; apply no_match_iff.
Qed.

Lemma some_match_iff (title : string) (x : pyval F) :
  some_match title x <-> exists t, reads_title x t /\ title_passes title t.
Proof.
  unfold some_match. split; intros (t & Ht & Hm); exists t;
    (split; [now apply item_title_reads|]).
  - apply passes_iff. now apply orb_true_iff.
  - apply orb_true_iff. now apply passes_iff.
Qed.

(** C2. When the listing is a list, [find_task_by_title] goes through it once,
    in order.  It returns an item exactly when that item is the first one
    whose title (the stripped [title] field, or the empty string when the
    field is absent or falsy) equals the given title case-insensitively or
    contains the three tokens "ktm", "status" and "update"
    case-insensitively, every item before it having a title that passes
    neither test.  It returns [None] exactly when every item has a title that
    passes neither test.  It raises [AttributeError] exactly when an item
    without a readable title comes before any item that passes. *)
Theorem find_task_by_title_first_match (self : TaskadeClient)
        (project title : string) (st st1 : state F)
        (items : list (pyval F)) :
  list_tasks cfg net self project
             (push (EvCall (CallFindTaskByTitle project title)) st)
  = (Ok (VList items), st1) ->
  (forall it,
      fst (find_task_by_title cfg net self project title st) = Ok (Some it)
      <-> exists pre post t,
            items = (pre ++ it :: post)%list
            /\ Forall (passed_over title) pre
            /\ reads_title it t /\ title_passes title t)
  /\ (fst (find_task_by_title cfg net self project title st) = Ok None
      <-> Forall (passed_over title) items)
  /\ (forall e,
        fst (find_task_by_title cfg net self project title st) = Raise e
        <-> e = AttributeError
            /\ exists pre x post,
                items = (pre ++ x :: post)%list
                /\ Forall (passed_over title) pre /\ unreadable x).
Proof.
  intros H. rewrite (find_task_by_title_scan _ _ _ _ _ _ H).
  split; [|split].
  - intros it. rewrite scan_tasks_found. split.
    + intros (pre & post & Heq & Hpre & Hit).
      apply some_match_iff in Hit. destruct Hit as (t & Ht & Hp).
      exists pre, post, t. rewrite <- Forall_no_match_iff. auto.
    + intros (pre & post & t & Heq & Hpre & Ht & Hp).
      exists pre, post. rewrite Forall_no_match_iff.
      split; [assumption|]. split; [assumption|].
      apply some_match_iff. eauto.
  - rewrite scan_tasks_none. apply Forall_no_match_iff.
  - intros e. rewrite scan_tasks_raises. split.
    + intros (pre & x & post & Heq & Hpre & Hx).
      apply item_title_unreadable in Hx. destruct Hx as (-> & Hx).
      split; [reflexivity|].
      exists pre, x, post. rewrite <- Forall_no_match_iff. auto.
    + intros (-> & pre & x & post & Heq & Hpre & Hx).
      exists pre, x, post. rewrite Forall_no_match_iff.
      split; [assumption|]. split; [assumption|].
      apply item_title_unreadable. auto.
Qed.

Lemma untitled_title (x : pyval F) : untitled x -> item_title x = Ok "".
Proof.
  intros (kvs & -> & [H|H]); unfold item_title, py_get, dict_get_default;
    rewrite H; cbn; now rewrite str_strip_empty.
Qed.

Lemma exact_match_empty (title : string) :
  title <> "" -> exact_match "" title = false.
Proof.
  intros H. unfold exact_match. rewrite str_lower_empty.
  destruct (str_lower title) eqn:E; [|reflexivity].
  apply str_lower_nonempty in E. contradiction.
Qed.

Lemma keyword_match_empty : keyword_match "" = false.
Proof. unfold keyword_match. now rewrite str_lower_empty. Qed.

Lemma scan_tasks_skip (pre post : list (pyval F)) (x : pyval F)
      (title : string) (st : state F) :
  item_title x = Ok "" -> exact_match "" title = false ->
  fst (scan_tasks (pre ++ x :: post) title st)
  = fst (scan_tasks (pre ++ post) title st).
Proof.
  intros Hx He. revert st; induction pre as [|y pre IH]; intros st; simpl app.
  - rewrite scan_tasks_cons, Hx, He, keyword_match_empty. simpl.
    apply scan_tasks_state_irrelevant.
  - rewrite !scan_tasks_cons.
    destruct (item_title y) as [t|e]; [|reflexivity].
    destruct (exact_match t title || keyword_match t); [reflexivity|].
    apply IH.
Qed.

(** C10. For a search title that is not empty, an item whose field [title] is
    absent or [None] is read as having the empty title without error, passes
    neither the exact nor the keyword test, and the loop continues past it:
    the search returns what it returns on the listing without that item. *)
Theorem untitled_item_is_skipped (title : string) (x : pyval F)
        (pre post : list (pyval F)) (st : state F) :
  title <> "" ->
  untitled x ->
  item_title x = Ok ""
  /\ exact_match "" title = false
  /\ keyword_match "" = false
  /\ fst (scan_tasks (pre ++ x :: post) title st)
     = fst (scan_tasks (pre ++ post) title st).
Proof.
  intros Ht Hx.
  pose proof (untitled_title _ Hx) as Hx'.
  pose proof (exact_match_empty _ Ht) as He.
  repeat split; try assumption.
  - apply keyword_match_empty.
  - now apply scan_tasks_skip.
Qed.

End TitleSearch.
Section Retry.

Context {F : Type} {RT : PyRuntime F}.
Variable cfg : Config F.
Variable net : network F.

Lemma count_app (p : event F -> bool) (a b : list (event F)) :
  count p (a ++ b) = count p a + count p b.
Proof. unfold count. now rewrite filter_app, length_app. Qed.

(** One attempt either returns a response below 500 or fails with the error
    [failure_of] names; in both cases it sends exactly one request. *)
Lemma attempt_once_spec (req : request F) (st : state F) :
  attempt_once net req st
  = (match net (sent st) req with
     | Returned r =>
         if (status_code r >=? 500)%Z
         then Raise (HTTPError (server_error_msg r) None) else Ok r
     | Failed e => Raise e
     end,
     {| sent := S (sent st); trace := trace st ++ [EvRequest req] |}).
Proof.
  unfold attempt_once, bind, send.
  destruct (net (sent st) req) as [r|e]; [|reflexivity].
  destruct (status_code r >=? 500)%Z; reflexivity.
Qed.

Lemma http_loop_all_fail (req : request F) (err : nat -> exn)
      (delay : nat -> F) (k : nat) :
  forall (i0 : nat) (st : state F) (last : option exn),
    (forall j, j < k ->
               failure_of (net (sent st + j) req) = Some (err (i0 + j))) ->
    (forall j, j < k ->
               f_pow (RETRY_BACKOFF cfg) (Z.of_nat (i0 + j)) = Some (delay (i0 + j))
               /\ sleep_raises (delay (i0 + j)) = None) ->
    http_loop cfg net req k (Z.of_nat i0 + 1) last st
    = (Raise (match k with
              | O => match last with Some e => e | None => AssertionError end
              | S k' => err (i0 + k')
              end),
       {| sent := sent st + k;
          trace := trace st
                     ++ flat_map (failed_attempt cfg req err delay) (seq i0 k) |}).
Proof.
  induction k as [|k IH]; intros i0 st last Hfail Hdelay.
  - simpl. rewrite Nat.add_0_r, app_nil_r.
    destruct st as [n tr]; destruct last; reflexivity.
  - cbn [http_loop]. unfold catch. rewrite attempt_once_spec.
    pose proof (Hfail 0 (Nat.lt_0_succ k)) as H0.
    pose proof (Hdelay 0 (Nat.lt_0_succ k)) as [Hp Hs].
    rewrite !Nat.add_0_r in *.
    assert (Hstep :
      forall e, back_off cfg req (Z.of_nat i0 + 1) e
                  {| sent := S (sent st); trace := trace st ++ [EvRequest req] |}
                = (Ok tt,
                   {| sent := S (sent st);
                      trace := trace st ++ [EvRequest req]
                                 ++ [EvLog WARNING
                                       (LogRetry (req_method req) (req_url req)
                                          (Z.of_nat i0 + 1) (MAX_RETRIES cfg)
                                          e (delay i0));
                                     EvSleep (delay i0)] |})).
    { intros e. unfold back_off.
      replace (Z.of_nat i0 + 1 - 1)%Z with (Z.of_nat i0) by lia.
      rewrite Hp. unfold bind, log, emit, push. cbn.
      rewrite Hs. cbn. now rewrite <- !app_assoc. }
    assert (Hrec :
      forall st1, sent st1 = S (sent st) ->
        http_loop cfg net req k (Z.of_nat i0 + 1 + 1) (Some (err i0)) st1
        = (Raise (err (i0 + k)),
           {| sent := sent st1 + k;
              trace := trace st1
                         ++ flat_map (failed_attempt cfg req err delay)
                                     (seq (S i0) k) |})).
    { intros st1 Hst1.
      replace (Z.of_nat i0 + 1 + 1)%Z with (Z.of_nat (S i0) + 1)%Z by lia.
      rewrite (IH (S i0) st1 (Some (err i0))).
      - destruct k as [|k']; [now rewrite !Nat.add_0_r|].
        now replace (S i0 + k') with (i0 + S k') by lia.
      - intros j Hj. rewrite Hst1.
        replace (S (sent st) + j) with (sent st + S j) by lia.
        replace (S i0 + j) with (i0 + S j) by lia. apply Hfail. lia.
      - intros j Hj. replace (S i0 + j) with (i0 + S j) by lia.
        apply Hdelay. lia. }
    assert (Hgo :
      forall e, e = err i0 ->
        (bind (back_off cfg req (Z.of_nat i0 + 1) e)
              (fun _ => http_loop cfg net req k (Z.of_nat i0 + 1 + 1) (Some e)))
          {| sent := S (sent st); trace := trace st ++ [EvRequest req] |}
        = (Raise (err (i0 + k)),
           {| sent := sent st + S k;
              trace := trace st
                         ++ flat_map (failed_attempt cfg req err delay)
                                     (seq i0 (S k)) |})).
    { intros e ->. unfold bind at 1. rewrite Hstep.
      rewrite Hrec by reflexivity. cbn [sent trace seq flat_map failed_attempt].
      f_equal. f_equal; [lia|].
      rewrite <- !app_assoc. reflexivity. }
    unfold failure_of in H0.
    destruct (net (sent st) req) as [r|e].
    + destruct (status_code r >=? 500)%Z; [|discriminate].
      injection H0 as H0. now apply Hgo.
    + injection H0 as H0. now apply Hgo.
Qed.

(** C5. With [MAX_RETRIES >= 1] and delays that [time.sleep] accepts, if
    every attempt fails (a transport error or a status of 500 or more),
    [http_request] sends exactly [MAX_RETRIES] requests, sleeps
    [RETRY_BACKOFF ** (attempt - 1)] seconds after attempt number [attempt],
    and then raises the error of the last attempt. *)
Theorem http_request_exhausts_retries (method url : string)
        (headers : list (string * string)) (body : option (pyval F))
        (st : state F) (err : nat -> exn) (delay : nat -> F) :
  let req := {| req_method := method; req_url := url; req_headers := headers;
                req_json := body; req_timeout := HTTP_TIMEOUT cfg |} in
  let n := Z.to_nat (MAX_RETRIES cfg) in
  (1 <= MAX_RETRIES cfg)%Z ->
  (forall i, i < n -> failure_of (net (sent st + i) req) = Some (err i)) ->
  (forall i, i < n ->
             f_pow (RETRY_BACKOFF cfg) (Z.of_nat i) = Some (delay i)
             /\ sleep_raises (delay i) = None) ->
  http_request cfg net method url headers body st
  = (Raise (err (n - 1)),
     {| sent := sent st + n;
        trace := trace st
                   ++ flat_map (failed_attempt cfg req err delay) (seq 0 n) |})
  /\ count is_request (flat_map (failed_attempt cfg req err delay) (seq 0 n)) = n.
Proof.
  intros req n Hmax Hfail Hdelay. split.
  - unfold http_request. fold req. fold n.
    change 1%Z with (Z.of_nat 0 + 1)%Z.
    rewrite (http_loop_all_fail req err delay n 0 st None Hfail Hdelay).
    destruct n as [|k] eqn:En; [lia|].
    simpl. now rewrite Nat.sub_0_r.
  - generalize 0 as i0. clear. induction n as [|k IH]; intros i0.
    + reflexivity.
    + cbn [seq flat_map]. rewrite count_app, IH. reflexivity.
Qed.

Lemma attempt_once_fails (req : request F) (st : state F) (e : exn) :
  failure_of (net (sent st) req) = Some e ->
  attempt_once net req st
  = (Raise e, {| sent := S (sent st); trace := trace st ++ [EvRequest req] |}).
Proof.
  intros H. rewrite attempt_once_spec. unfold failure_of in H.
  destruct (net (sent st) req) as [r|e'].
  - destruct (status_code r >=? 500)%Z; [|discriminate]. now injection H as <-.
  - now injection H as <-.
Qed.

Lemma attempt_once_returns (req : request F) (st : state F) :
  failure_of (net (sent st) req) = None ->
  exists r, net (sent st) req = Returned r
            /\ (status_code r < 500)%Z
            /\ attempt_once net req st
               = (Ok r, {| sent := S (sent st);
                           trace := trace st ++ [EvRequest req] |}).
Proof.
  intros H. rewrite attempt_once_spec. unfold failure_of in H.
  destruct (net (sent st) req) as [r|e']; [|discriminate].
  exists r. destruct (status_code r >=? 500)%Z eqn:Hsc; [discriminate|].
  rewrite Z.geb_leb in Hsc. apply Z.leb_gt in Hsc. auto.
Qed.

(** A back-off that completes sends nothing and records a warning and a
    sleep. *)
Lemma back_off_inv (req : request F) (attempt : Z) (e : exn)
      (st st1 : state F) (u : unit) :
  back_off cfg req attempt e st = (Ok u, st1) ->
  sent st1 = sent st
  /\ exists ev1 ev2,
      trace st1 = (trace st ++ [ev1; ev2])%list
      /\ is_request ev1 = false /\ is_request ev2 = false.
Proof.
  unfold back_off. intros H.
  destruct (f_pow _ _) as [d|]; [|discriminate].
  unfold bind, log, emit, push in H. cbn in H.
  destruct (sleep_raises d); [discriminate|].
  injection H as _ <-. cbn. split; [reflexivity|].
  do 2 eexists. rewrite <- !app_assoc. cbn. repeat split.
Qed.

Lemma http_loop_returns (req : request F) (k : nat) :
  forall (attempt : Z) (last : option exn) (st st' : state F)
         (resp : response F),
    http_loop cfg net req k attempt last st = (Ok resp, st') ->
    (status_code resp < 500)%Z
    /\ exists j tr,
        j < k
        /\ net (sent st + j) req = Returned resp
        /\ (forall i, i < j -> failure_of (net (sent st + i) req) <> None)
        /\ sent st' = sent st + j + 1
        /\ trace st' = (trace st ++ tr ++ [EvRequest req])%list
        /\ count is_request tr = j.
Proof.
  induction k as [|k IH]; intros attempt last st st' resp H.
  - simpl in H. destruct last; discriminate.
  - cbn [http_loop] in H. unfold catch in H.
    destruct (failure_of (net (sent st) req)) as [e|] eqn:Hf.
    + (* the attempt fails: back off, then try again *)
      rewrite (attempt_once_fails _ _ _ Hf) in H.
      unfold bind at 1 in H.
      destruct (back_off cfg req attempt e _) as [[u|e'] st1] eqn:Hb;
        [|discriminate].
      apply back_off_inv in Hb. cbn in Hb.
      destruct Hb as (Hs1 & ev1 & ev2 & Ht1 & He1 & He2).
      apply IH in H.
      destruct H as (Hlt & j & tr & Hj & Hn & Hprev & Hsent & Htr & Hc).
      split; [assumption|].
      exists (S j), ([EvRequest req; ev1; ev2] ++ tr)%list. repeat split.
      * lia.
      * rewrite Hs1 in Hn.
        now replace (sent st + S j) with (S (sent st) + j) by lia.
      * intros i Hi. destruct i as [|i].
        -- rewrite Nat.add_0_r, Hf. discriminate.
        -- replace (sent st + S i) with (sent st1 + i) by lia.
           apply Hprev. lia.
      * lia.
      * rewrite Htr, Ht1. now rewrite <- !app_assoc.
      * rewrite count_app, Hc. unfold count. cbn. now rewrite He1, He2.
    + (* the attempt returns: the loop stops *)
      destruct (attempt_once_returns _ _ Hf) as (r & Hnet & Hsc & Heq).
      rewrite Heq in H. injection H as <- <-. split; [assumption|].
      exists 0, []. rewrite Nat.add_0_r.
      repeat split; try assumption; cbn; lia.
Qed.

(** C9. Whenever [http_request] returns a response, its status is below 500
    and it is the answer to the first attempt that did not fail: every
    earlier attempt failed, and nothing is sent (or done) after the request
    it answers. *)
Theorem http_request_returns_first_success (method url : string)
        (headers : list (string * string)) (body : option (pyval F))
        (st st' : state F) (resp : response F) :
  let req := {| req_method := method; req_url := url; req_headers := headers;
                req_json := body; req_timeout := HTTP_TIMEOUT cfg |} in
  http_request cfg net method url headers body st = (Ok resp, st') ->
  (status_code resp < 500)%Z
  /\ exists j tr,
      j < Z.to_nat (MAX_RETRIES cfg)
      /\ net (sent st + j) req = Returned resp
      /\ (forall i, i < j -> failure_of (net (sent st + i) req) <> None)
      /\ sent st' = sent st + j + 1
      /\ trace st' = (trace st ++ tr ++ [EvRequest req])%list
      /\ count is_request tr = j.
Proof.
  intros req H. exact (http_loop_returns req _ _ _ _ _ _ H).
Qed.

End Retry.
Section Calls.

Context {F : Type} {RT : PyRuntime F}.

Lemma calls_of_app (a b : list (event F)) :
  calls_of (a ++ b) = (calls_of a ++ calls_of b)%list.
Proof.
  induction a as [|ev a IH]; [reflexivity|].
  destruct ev; simpl; now rewrite IH.
Qed.

Lemma silent_ret {A} (a : A) : silent (F:=F) (ret a).
Proof. intros st. reflexivity. Qed.

Lemma silent_raise {A} (e : exn) : silent (F:=F) (A:=A) (raise e).
Proof. intros st. reflexivity. Qed.

Lemma silent_lift {A} (r : result A) : silent (F:=F) (lift r).
Proof. intros st. reflexivity. Qed.

Lemma silent_bind {A B} (m : M F A) (k : A -> M F B) :
  silent m -> (forall a, silent (k a)) -> silent (bind m k).
Proof.
  intros Hm Hk st. unfold bind. specialize (Hm st).
  destruct (m st) as [[a|e] st1]; simpl in *.
  - now rewrite Hk.
  - assumption.
Qed.

Lemma silent_catch {A} (m : M F A) (h : exn -> M F A) :
  silent m -> (forall e, silent (h e)) -> silent (catch m h).
Proof.
  intros Hm Hh st. unfold catch. specialize (Hm st).
  destruct (m st) as [[a|e] st1]; simpl in *.
  - assumption.
  - now rewrite Hh.
Qed.

Lemma silent_log (lvl : level) (m : logmsg F) : silent (log lvl m).
Proof.
  intros st. unfold log, emit, push. simpl.
  rewrite calls_of_app. simpl. apply app_nil_r.
Qed.

Lemma silent_sleep (d : F) : silent (emit (EvSleep d)).
Proof.
  intros st. unfold emit, push. simpl.
  rewrite calls_of_app. simpl. apply app_nil_r.
Qed.

Lemma silent_print (v : pyval F) : silent (emit (EvPrintJson v)).
Proof.
  intros st. unfold emit, push. simpl.
  rewrite calls_of_app. simpl. apply app_nil_r.
Qed.

Lemma silent_send (net : network F) (r : request F) : silent (send net r).
Proof.
  intros st. unfold send.
  destruct (net (sent st) r); simpl; rewrite calls_of_app; simpl;
    apply app_nil_r.
Qed.

(** Entering a method and then running a silent body records one call. *)
Lemma calls_after_entry {A} (c : client_call) (m : M F A) (st : state F) :
  silent m ->
  calls_of (trace (snd (bind (emit (EvCall c)) (fun _ => m) st)))
  = (calls_of (trace st) ++ [c])%list.
Proof.
  intros Hm. unfold bind, emit. rewrite Hm. unfold push. simpl.
  now rewrite calls_of_app.
Qed.

End Calls.

Create HintDb silent.

#[local] Hint Resolve silent_ret silent_raise silent_lift silent_log
  silent_sleep silent_print silent_send : silent.

Section Run.

Context {F : Type} {RT : PyRuntime F}.
Variable cfg : Config F.
Variable clk : Clock.
Variable net : network F.

Ltac silence :=
  repeat first
    [ apply silent_bind; [|intros ?]
    | apply silent_catch; [|intros ?]
    | solve [auto with silent]
    | match goal with
      | |- silent (if ?b then _ else _) => destruct b
      | |- silent (match ?x with _ => _ end) => destruct x
      end ].

Lemma silent_back_off (req : request F) (attempt : Z) (e : exn) :
  silent (back_off cfg req attempt e).
Proof. unfold back_off. silence. Qed.

Lemma silent_http_loop (req : request F) (k : nat) :
  forall attempt last, silent (http_loop cfg net req k attempt last).
Proof.
  induction k as [|k IH]; intros attempt last; cbn [http_loop].
  - silence.
  - apply silent_catch.
    + unfold attempt_once. silence.
    + intros e. apply silent_bind; [apply silent_back_off | intros _; apply IH].
Qed.

Lemma silent_http_request (method url : string)
      (headers : list (string * string)) (body : option (pyval F)) :
  silent (http_request cfg net method url headers body).
Proof. apply silent_http_loop. Qed.

Lemma silent_fetch (url : string) :
  silent (fetch_gtfs_realtime_feed cfg net url).
Proof. unfold fetch_gtfs_realtime_feed, raise_for_status. silence. Qed.

Lemma silent_on_error (e : exn) : silent (on_error (F:=F) e).
Proof. unfold on_error. silence. Qed.

Lemma update_task_calls (self : TaskadeClient) (task_id content : string)
      (st : state F) :
  calls_of (trace (snd (update_task cfg net self task_id content st)))
  = (calls_of (trace st) ++ [CallUpdateTask task_id content])%list.
Proof.
  unfold update_task. apply calls_after_entry.
  pose proof silent_http_request. silence.
Qed.

Lemma truthy_iff (s : string) : PyStr.truthy s = true <-> s <> "".
Proof. destruct s; simpl; split; congruence. Qed.

Lemma new_client_ok :
  TASKADE_API_TOKEN cfg <> "" ->
  new_client TASKADE_BASE_URL (TASKADE_API_TOKEN cfg) = Ok (the_client cfg).
Proof.
  intros H. apply truthy_iff in H. unfold new_client. rewrite H. reflexivity.
Qed.

(** With the configuration complete and the feed decoded, the [try] block
    is the upsert on the rendered report. *)
Lemma main_body_after_fetch (feed : FeedMessage F) (s1 : state F) :
  TASKADE_API_TOKEN cfg <> "" ->
  fetch_gtfs_realtime_feed cfg net GTFSR_URL
                           (push (EvLog INFO LogStart) initial)
  = (Ok feed, s1) ->
  main_body cfg clk net initial
  = upsert cfg net (the_client cfg)
           (format_markdown clk (fst (parse_feed feed)) (snd (parse_feed feed)))
           s1.
Proof.
  intros Htok Hfetch. unfold main_body.
  rewrite (new_client_ok Htok).
  unfold bind at 1. unfold lift at 1.
  unfold bind at 1. unfold log, emit.
  unfold bind at 1. rewrite Hfetch.
  destruct (parse_feed feed); reflexivity.
Qed.

Lemma main_complete (st : state F) :
  TASKADE_PROJECT_ID cfg <> "" -> TASKADE_API_TOKEN cfg <> "" ->
  main cfg clk net st = catch (main_body cfg clk net) on_error st.
Proof.
  intros Hp Ht. apply truthy_iff in Hp, Ht. unfold main. now rewrite Hp, Ht.
Qed.

Lemma on_error_exit (e : exn) (st : state F) :
  fst (on_error e st) = Ok 1%Z
  /\ exists m tr, trace (snd (on_error e st))
                  = (trace st ++ EvLog ERROR m :: tr)%list.
Proof.
  unfold on_error, bind, log, emit, push, ret.
  destruct (is_RequestException e).
  - destruct e as [msg [body|]| | | | | | | | | |]; simpl;
      (split; [reflexivity|]); rewrite <- ?app_assoc; simpl;
      do 2 eexists; reflexivity.
  - destruct (is_KeyError e); simpl; (split; [reflexivity|]);
      rewrite <- ?app_assoc; simpl; do 2 eexists; reflexivity.
Qed.

(** C8. If the API token or the project identifier is missing, the process
    exits with status 2 and has sent no request. *)
Theorem missing_config_exits_2 :
  TASKADE_API_TOKEN cfg = "" \/ TASKADE_PROJECT_ID cfg = "" ->
  fst (run cfg clk net) = Ok 2%Z
  /\ sent (snd (run cfg clk net)) = 0
  /\ count is_request (trace (snd (run cfg clk net))) = 0.
Proof.
  unfold run, main. intros [H|H].
  - rewrite H. destruct (TASKADE_PROJECT_ID cfg); cbn; auto.
  - rewrite H. cbn. auto.
Qed.

(** The run with a configured task identifier, after the fetch. *)
Lemma run_known_id (feed : FeedMessage F) (s1 : state F) :
  let task_id := str_strip (TASKADE_TASK_ID cfg) in
  let content :=
    format_markdown clk (fst (parse_feed feed)) (snd (parse_feed feed)) in
  TASKADE_PROJECT_ID cfg <> "" ->
  TASKADE_API_TOKEN cfg <> "" ->
  task_id <> "" ->
  fetch_gtfs_realtime_feed cfg net GTFSR_URL
                           (push (EvLog INFO LogStart) initial)
  = (Ok feed, s1) ->
  run cfg clk net
  = match update_task cfg net (the_client cfg) task_id content
            (push (EvLog INFO (LogUpdatingExisting task_id)) s1) with
    | (Ok _, s2) => (Ok 0%Z, push (EvLog INFO LogUpdateComplete) s2)
    | (Raise e, s2) => on_error e s2
    end.
Proof.
  intros task_id content Hp Ht Hid Hfetch.
  assert (Hraw : PyStr.truthy (TASKADE_TASK_ID cfg) = true).
  { apply truthy_iff. intros E. apply Hid. unfold task_id.
    rewrite E. apply str_strip_empty. }
  unfold run. rewrite (main_complete _ Hp Ht). unfold catch.
  rewrite (main_body_after_fetch _ _ Ht Hfetch). fold content.
  unfold upsert. rewrite Hraw. fold task_id.
  apply truthy_iff in Hid. rewrite Hid.
  unfold bind, log, emit, ret.
  destruct (update_task cfg net (the_client cfg) task_id content _)
    as [[v|e] s2]; reflexivity.
Qed.

(** C6. With the configuration complete and the feed fetched and decoded, a
    run whose configured task identifier is not empty after trimming enters
    [update_task] exactly once, for that identifier and the rendered report,
    and enters no other method of the client; it exits with status 0 when
    the update succeeds and with status 1 when it raises. *)
Theorem known_id_updates_once (feed : FeedMessage F) (s1 : state F) :
  let task_id := str_strip (TASKADE_TASK_ID cfg) in
  let content :=
    format_markdown clk (fst (parse_feed feed)) (snd (parse_feed feed)) in
  TASKADE_PROJECT_ID cfg <> "" ->
  TASKADE_API_TOKEN cfg <> "" ->
  task_id <> "" ->
  fetch_gtfs_realtime_feed cfg net GTFSR_URL
                           (push (EvLog INFO LogStart) initial)
  = (Ok feed, s1) ->
  calls_of (trace (snd (run cfg clk net))) = [CallUpdateTask task_id content]
  /\ List.length (filter is_update (calls_of (trace (snd (run cfg clk net))))) = 1
  /\ filter is_create (calls_of (trace (snd (run cfg clk net)))) = []
  /\ filter is_find (calls_of (trace (snd (run cfg clk net)))) = []
  /\ match fst (update_task cfg net (the_client cfg) task_id content
                  (push (EvLog INFO (LogUpdatingExisting task_id)) s1)) with
     | Ok _ => fst (run cfg clk net) = Ok 0%Z
     | Raise _ => fst (run cfg clk net) = Ok 1%Z
     end.
Proof.
  intros task_id content Hp Ht Hid Hfetch.
  assert (Hcalls1 : calls_of (trace s1) = []).
  { pose proof (silent_fetch GTFSR_URL (push (EvLog INFO LogStart) initial)) as H.
    rewrite Hfetch in H. exact H. }
  rewrite (run_known_id feed s1 Hp Ht Hid Hfetch). fold task_id content.
  pose proof (update_task_calls (the_client cfg) task_id content
                (push (EvLog INFO (LogUpdatingExisting task_id)) s1)) as Hu.
  unfold push at 2 in Hu. cbn [trace] in Hu.
  rewrite calls_of_app, Hcalls1 in Hu. simpl in Hu.
  destruct (update_task cfg net (the_client cfg) task_id content _)
    as [[v|e] s2]; simpl in Hu.
  - unfold push. cbn [fst snd trace].
    rewrite calls_of_app, Hu. simpl. repeat split; reflexivity.
  - destruct (on_error_exit e s2) as (Hexit & _).
    pose proof (silent_on_error e s2) as Hs. rewrite Hu in Hs.
    rewrite Hs. cbn [fst]. repeat split; try reflexivity. exact Hexit.
Qed.

(** ** The create branch *)

Lemma upsert_searches (client : TaskadeClient) (content : string)
      (s1 : state F) :
  str_strip (TASKADE_TASK_ID cfg) = "" ->
  upsert cfg net client content s1
  = bind (find_task_by_title cfg net client (TASKADE_PROJECT_ID cfg)
                             DASHBOARD_TITLE)
         (fun existing =>
            match existing with
            | Some it =>
                if py_truthy it then
                  bind (lift (id_of it))
                       (fun discovered_id =>
                          if negb (PyStr.truthy discovered_id) then
                            bind (log WARNING LogFoundNoId)
                                 (fun _ => create_new cfg net client content)
                          else
                            bind (log INFO (LogFoundExisting discovered_id))
                              (fun _ =>
                                 bind (update_task cfg net client discovered_id content)
                                   (fun _ =>
                                      bind (print_task_id discovered_id)
                                           (fun _ => ret 0%Z))))
                else create_new cfg net client content
            | None => create_new cfg net client content
            end)
         (push (EvLog INFO (LogSearchingExisting DASHBOARD_TITLE
                                                 (TASKADE_PROJECT_ID cfg))) s1).
Proof.
  intros Hid. unfold upsert.
  assert (H : PyStr.truthy (if PyStr.truthy (TASKADE_TASK_ID cfg)
                            then str_strip (TASKADE_TASK_ID cfg) else "")
              = false).
  { rewrite Hid. now destruct (PyStr.truthy (TASKADE_TASK_ID cfg)). }
  rewrite H. reflexivity.
Qed.

(** A search that finds nothing leads to the create branch. *)
Lemma search_none_takes_create_branch (feed : FeedMessage F)
      (s1 s2 : state F) :
  TASKADE_API_TOKEN cfg <> "" ->
  str_strip (TASKADE_TASK_ID cfg) = "" ->
  fetch_gtfs_realtime_feed cfg net GTFSR_URL
                           (push (EvLog INFO LogStart) initial)
  = (Ok feed, s1) ->
  find_task_by_title cfg net (the_client cfg) (TASKADE_PROJECT_ID cfg)
    DASHBOARD_TITLE
    (push (EvLog INFO (LogSearchingExisting DASHBOARD_TITLE
                                            (TASKADE_PROJECT_ID cfg))) s1)
  = (Ok None, s2) ->
  takes_create_branch cfg clk net initial (the_client cfg)
    (format_markdown clk (fst (parse_feed feed)) (snd (parse_feed feed))) s2.
Proof.
  intros Ht Hid Hfetch Hfind. unfold takes_create_branch.
  rewrite (main_body_after_fetch _ _ Ht Hfetch), (upsert_searches _ _ _ Hid).
  unfold bind at 1. now rewrite Hfind.
Qed.

(** A search that finds a task without a usable identifier logs a warning
    and leads to the create branch as well. *)
Lemma found_without_id_takes_create_branch (feed : FeedMessage F)
      (s1 s2 : state F) (it : pyval F) :
  TASKADE_API_TOKEN cfg <> "" ->
  str_strip (TASKADE_TASK_ID cfg) = "" ->
  fetch_gtfs_realtime_feed cfg net GTFSR_URL
                           (push (EvLog INFO LogStart) initial)
  = (Ok feed, s1) ->
  find_task_by_title cfg net (the_client cfg) (TASKADE_PROJECT_ID cfg)
    DASHBOARD_TITLE
    (push (EvLog INFO (LogSearchingExisting DASHBOARD_TITLE
                                            (TASKADE_PROJECT_ID cfg))) s1)
  = (Ok (Some it), s2) ->
  py_truthy it = true ->
  id_of it = Ok "" ->
  takes_create_branch cfg clk net initial (the_client cfg)
    (format_markdown clk (fst (parse_feed feed)) (snd (parse_feed feed)))
    (push (EvLog WARNING LogFoundNoId) s2).
Proof.
  intros Ht Hid Hfetch Hfind Htruthy Hnoid. unfold takes_create_branch.
  rewrite (main_body_after_fetch _ _ Ht Hfetch), (upsert_searches _ _ _ Hid).
  unfold bind at 1. rewrite Hfind, Htruthy.
  unfold bind at 1. unfold lift at 1. rewrite Hnoid. reflexivity.
Qed.



End Run.

(* ================================================================== *)
(** * Concrete runs *)

Module Runs.

Import Exact.

Ltac evaluate :=
  match goal with
  | |- ?l = _ => let v := eval vm_compute in l in change l with v
  end;
  reflexivity.

(** The two-entity scenario: two records, and the count line for two. *)
Example two_entities_report :
  List.length (snd (parse_feed two_entities)) = 2
  /\ PyStr.contains "Found **2** active trains."
       (format_markdown clk0 (fst (parse_feed two_entities))
                        (snd (parse_feed two_entities))) = true.
Proof. split; vm_compute; reflexivity. Qed.



(** C2, as stated, fails: the listing holds a keyword-only match followed by
    an exact match, and the search returns the keyword-only match. *)
Lemma later_exact_match_counterexample :
  item_title exact_item = Ok DASHBOARD_TITLE
  /\ exact_match DASHBOARD_TITLE DASHBOARD_TITLE = true
  /\ item_title keyword_item = Ok "KTM status update notes"
  /\ exact_match "KTM status update notes" DASHBOARD_TITLE = false
  /\ fst (find_task_by_title cfg0 net_keyword_then_exact client0 "proj"
            DASHBOARD_TITLE initial)
     = Ok (Some keyword_item)
  /\ fst (find_task_by_title cfg0 net_keyword_then_exact client0 "proj"
            DASHBOARD_TITLE initial)
     <> Ok (Some exact_item).
Proof.
  repeat split; try (vm_compute; reflexivity).
  vm_compute. discriminate.
Qed.

Lemma find_task_by_title_first_match_witness :
  (forall it,
      fst (find_task_by_title cfg0 net_keyword_then_exact client0 "proj"
             DASHBOARD_TITLE initial) = Ok (Some it)
      <-> exists pre post t,
            [keyword_item; exact_item] = (pre ++ it :: post)%list
            /\ Forall (passed_over DASHBOARD_TITLE) pre
            /\ reads_title it t /\ title_passes DASHBOARD_TITLE t)
  /\ (fst (find_task_by_title cfg0 net_keyword_then_exact client0 "proj"
             DASHBOARD_TITLE initial) = Ok None
      <-> Forall (passed_over DASHBOARD_TITLE) [keyword_item; exact_item])
  /\ (forall e,
        fst (find_task_by_title cfg0 net_keyword_then_exact client0 "proj"
               DASHBOARD_TITLE initial) = Raise e
        <-> e = AttributeError
            /\ exists pre x post,
                [keyword_item; exact_item] = (pre ++ x :: post)%list
                /\ Forall (passed_over DASHBOARD_TITLE) pre /\ unreadable x).
Proof.
  eapply (find_task_by_title_first_match cfg0 net_keyword_then_exact client0
            "proj" DASHBOARD_TITLE initial).
  evaluate.
Defined.

(** C3. On a run without a configured identifier whose search finds the
    dashboard task without an identifier, the orchestrator logs the warning,
    then enters [create_task], sends the create request and prints the new
    identifier before it exits with status 0. *)
Theorem found_without_id_creates_task :
  fst (find_task_by_title cfg0 net_found_without_id client0 "proj"
         DASHBOARD_TITLE
         {| sent := 1; trace := [] |}) = Ok (Some item_without_id)
  /\ id_of item_without_id = Ok ""
  /\ fst found_without_id_run = Ok 0%Z
  /\ In (EvLog WARNING LogFoundNoId) (trace (snd found_without_id_run))
  /\ calls_of (trace (snd found_without_id_run))
     = [CallFindTaskByTitle "proj" DASHBOARD_TITLE;
        CallListTasks "proj";
        CallCreateTask "proj" (format_markdown clk0 None []) DASHBOARD_TITLE]
  /\ In (EvPrintJson (VDict [("TASKADE_TASK_ID", VStr "new1")]))
        (trace (snd found_without_id_run)).
Proof.
  repeat split; try (vm_compute; reflexivity).
  - vm_compute. tauto.
  - vm_compute. tauto.
Qed.

(** C5, as stated, fails: with three attempts allowed, a positive back-off
    factor of 1e200 and a server that always answers 503, the second delay is
    rejected by [time.sleep]; [http_request] raises [OverflowError] after two
    requests instead of the HTTP error after three. *)
Lemma http_request_exhausts_retries_counterexample :
  MAX_RETRIES cfg_huge_backoff = 3%Z
  /\ Qlt 0 (RETRY_BACKOFF cfg_huge_backoff)
  /\ failure_of (net_always_503 0 get_request)
     = Some (HTTPError "Server error 503: " None)
  /\ failure_of (net_always_503 1 get_request)
     = Some (HTTPError "Server error 503: " None)
  /\ fst (http_request cfg_huge_backoff net_always_503 "GET" "u" [] None initial)
     = Raise OverflowError
  /\ sent (snd (http_request cfg_huge_backoff net_always_503 "GET" "u" [] None
                  initial)) = 2
  /\ count is_request
       (trace (snd (http_request cfg_huge_backoff net_always_503 "GET" "u" []
                      None initial))) = 2.
Proof.
  repeat split; vm_compute; reflexivity.
Qed.

Lemma http_request_exhausts_retries_witness :
  http_request cfg0 net_always_503 "GET" "u" [] None initial
  = (Raise (HTTPError "Server error 503: " None),
     {| sent := 3;
        trace := flat_map
                   (failed_attempt cfg0 get_request
                      (fun _ => HTTPError "Server error 503: " None)
                      (fun i => Qred (Qpower (3 # 2) (Z.of_nat i))))
                   (seq 0 3) |})
  /\ count is_request
       (flat_map
          (failed_attempt cfg0 get_request
             (fun _ => HTTPError "Server error 503: " None)
             (fun i => Qred (Qpower (3 # 2) (Z.of_nat i))))
          (seq 0 3)) = 3.
Proof.
  apply (http_request_exhausts_retries cfg0 net_always_503 "GET" "u" [] None
           initial (fun _ => HTTPError "Server error 503: " None)
           (fun i => Qred (Qpower (3 # 2) (Z.of_nat i)))).
  - vm_compute. discriminate.
  - intros i _. reflexivity.
  - intros i Hi.
    destruct i as [|[|[|i]]];
      [split; vm_compute; reflexivity
      |split; vm_compute; reflexivity
      |split; vm_compute; reflexivity
      |vm_compute in Hi; lia].
Defined.

Lemma http_request_returns_first_success_witness :
  (status_code (with_status 404) < 500)%Z
  /\ exists j tr,
      j < Z.to_nat (MAX_RETRIES cfg0)
      /\ net_503_then_404 (sent (initial (F:=Q)) + j) get_request
         = Returned (with_status 404)
      /\ (forall i, i < j ->
            failure_of (net_503_then_404 (sent (initial (F:=Q)) + i) get_request)
            <> None)
      /\ sent (snd (http_request cfg0 net_503_then_404 "GET" "u" [] None initial))
         = sent (initial (F:=Q)) + j + 1
      /\ trace (snd (http_request cfg0 net_503_then_404 "GET" "u" [] None initial))
         = (trace (initial (F:=Q)) ++ tr ++ [EvRequest get_request])%list
      /\ count is_request tr = j.
Proof.
  apply (http_request_returns_first_success cfg0 net_503_then_404 "GET" "u"
           [] None initial).
  vm_compute. reflexivity.
Defined.

(** C6, as stated, fails: with the identifier configured, an update answered
    with status 404 ends the run with status 1; and when the feed cannot be
    fetched the run ends with status 1 without entering [update_task]. *)
Lemma known_id_counterexample :
  str_strip (TASKADE_TASK_ID cfg_known_id) = "abc"
  /\ fst (run cfg_known_id clk0 net_update_404) = Ok 1%Z
  /\ fst (run cfg_known_id clk0 net_update_404) <> Ok 0%Z
  /\ fst (run cfg_known_id clk0 net_down) = Ok 1%Z
  /\ calls_of (trace (snd (run cfg_known_id clk0 net_down))) = [].
Proof.
  repeat split; try (vm_compute; reflexivity).
  vm_compute. discriminate.
Qed.

Lemma known_id_updates_once_witness :
  calls_of (trace (snd (run cfg_known_id clk0 net_update_204)))
  = [CallUpdateTask "abc" (format_markdown clk0 None [])]
  /\ fst (run cfg_known_id clk0 net_update_204) = Ok 0%Z.
Proof.
  pose proof (known_id_updates_once cfg_known_id clk0 net_update_204
                empty_feed
                (snd (fetch_gtfs_realtime_feed cfg_known_id net_update_204
                        GTFSR_URL (push (EvLog INFO LogStart) initial)))) as H.
  cbv zeta in H.
  assert (Hp : TASKADE_PROJECT_ID cfg_known_id <> "") by discriminate.
  assert (Ht : TASKADE_API_TOKEN cfg_known_id <> "") by discriminate.
  assert (Hid : str_strip (TASKADE_TASK_ID cfg_known_id) <> "").
  { vm_compute. discriminate. }
  assert (Hf : fetch_gtfs_realtime_feed cfg_known_id net_update_204 GTFSR_URL
                 (push (EvLog INFO LogStart) initial)
               = (Ok empty_feed,
                  snd (fetch_gtfs_realtime_feed cfg_known_id net_update_204
                         GTFSR_URL (push (EvLog INFO LogStart) initial)))).
  { vm_compute. reflexivity. }
  destruct (H Hp Ht Hid Hf) as (Hcalls & _ & _ & _ & Hexit).
  split; [exact Hcalls | exact Hexit].
Defined.

Lemma missing_config_exits_2_witness :
  fst (run cfg_no_token clk0 net_down) = Ok 2%Z
  /\ sent (snd (run cfg_no_token clk0 net_down)) = 0
  /\ count is_request (trace (snd (run cfg_no_token clk0 net_down))) = 0.
Proof.
  apply (missing_config_exits_2 cfg_no_token clk0 net_down).
  left. reflexivity.
Defined.

(** C10, as stated, fails for the empty search title: an item without a
    title passes the exact test and is returned. *)
Lemma untitled_item_counterexample :
  untitled item_without_title
  /\ item_title item_without_title = Ok ""
  /\ exact_match "" "" = true
  /\ fst (scan_tasks [item_without_title] "" initial)
     = Ok (Some item_without_title)
  /\ fst (find_task_by_title cfg0 net_untitled client0 "proj" "" initial)
     = Ok (Some item_without_title).
Proof.
  repeat split; try (vm_compute; reflexivity).
  exists [("id", VStr "x")]. split; [reflexivity | left; reflexivity].
Qed.

Lemma untitled_item_is_skipped_witness :
  item_title item_without_title = Ok ""
  /\ exact_match "" DASHBOARD_TITLE = false
  /\ keyword_match "" = false
  /\ fst (scan_tasks ([] ++ item_without_title :: [exact_item])
                     DASHBOARD_TITLE initial)
     = fst (scan_tasks ([] ++ [exact_item]) DASHBOARD_TITLE initial).
Proof.
  apply (untitled_item_is_skipped DASHBOARD_TITLE item_without_title []
           [exact_item] initial).
  - discriminate.
  - exists [("id", VStr "x")]. split; [reflexivity | left; reflexivity].
Defined.

End Runs.

(* ================================================================== *)
(** * Further properties *)

(** ** Record extractor and renderer *)

Section MoreExtract.

Context {F : Type} {RT : PyRuntime F}.

Lemma parse_entities_map (es : list (FeedEntity F)) :
  parse_entities es = map vehicle_record (vehicles_of es).
Proof.
  induction es as [|e es IH]; [reflexivity|]. simpl.
  destruct (vehicle e); simpl; now rewrite IH.
Qed.

Lemma vehicles_of_length (es : list (FeedEntity F)) :
  List.length (vehicles_of es) <= List.length es.
Proof.
  induction es as [|e es IH]; [auto|]. simpl.
  destruct (vehicle e); simpl; lia.
Qed.

Lemma parse_feed_snd (feed : FeedMessage F) :
  snd (parse_feed feed) = map vehicle_record (vehicles_of (entity feed)).
Proof. unfold parse_feed. cbn [snd]. apply parse_entities_map. Qed.

(** X1. [parse_feed] yields one record per entity that has vehicle data, in
    feed order, skipping the others; every record has exactly the five keys
    [vehicle_id], [route_id], [lat], [lon], [speed_kmh], in that order. *)
Theorem parse_feed_records (feed : FeedMessage F) :
  snd (parse_feed feed) = map vehicle_record (vehicles_of (entity feed))
  /\ List.length (snd (parse_feed feed)) <= List.length (entity feed)
  /\ Forall (fun r => map fst r = record_keys) (snd (parse_feed feed)).
Proof.
  rewrite parse_feed_snd.
  split; [reflexivity|]. split.
  - rewrite length_map. apply vehicles_of_length.
  - apply Forall_forall. intros r Hr. apply in_map_iff in Hr.
    destruct Hr as (v & <- & _). unfold vehicle_record.
    destruct (message_truthy (pb_position v)); reflexivity.
Qed.

(** X2. In every record [parse_feed] yields, the vehicle identifier and the
    route identifier are non-empty strings: an unset or empty identifier is
    replaced by "Unknown". *)
Theorem parse_feed_ids_never_empty (feed : FeedMessage F) :
  Forall (fun r =>
            exists a b,
              dict_get r "vehicle_id" = Some (VStr a) /\ a <> ""
              /\ dict_get r "route_id" = Some (VStr b) /\ b <> "")
         (snd (parse_feed feed)).
Proof.
  rewrite parse_feed_snd.
  apply Forall_forall. intros r Hr. apply in_map_iff in Hr.
  destruct Hr as (v & <- & _).
  exists (if PyStr.truthy (pb_vehicle_id v) then pb_vehicle_id v else "Unknown"),
         (if PyStr.truthy (pb_route_id v) then pb_route_id v else "Unknown").
  repeat split.
  - destruct (pb_vehicle_id v); simpl; discriminate.
  - destruct (pb_route_id v); simpl; discriminate.
Qed.

(** X3. The feed timestamp [parse_feed] returns is [None] exactly when the
    header timestamp is unset or zero; otherwise it is the header timestamp,
    which is then not zero. *)
Theorem parse_feed_timestamp (feed : FeedMessage F) :
  (fst (parse_feed feed) = None
   <-> timestamp (header feed) = None \/ timestamp (header feed) = Some 0%Z)
  /\ (forall t, fst (parse_feed feed) = Some t
                <-> timestamp (header feed) = Some t /\ t <> 0%Z).
Proof.
  unfold parse_feed, pb_timestamp, message_truthy. cbn [fst andb].
  destruct (timestamp (header feed)) as [t0|].
  - destruct (Z.eqb_spec t0 0) as [->|Hne]; cbn [negb].
    + split.
      * split; auto.
      * intros t. split; [discriminate|]. intros [H Ht]. congruence.
    + split.
      * split; [discriminate|]. intros [H|H]; congruence.
      * intros t. split.
        -- intros H. injection H as <-. auto.
        -- intros [H _]. exact H.
  - cbn. split.
    + split; auto.
    + intros t. split; [discriminate|]. intros [H _]. discriminate.
Qed.

(** X4. The block rendered for a record that [parse_feed] extracted never
    falls back on the renderer's own "Unknown" defaults: it shows the
    identifier and route of the record and the rounded coordinates and the
    converted speed as numbers, whether or not the entity had a position. *)
Theorem vehicle_block_of_record (v : VehiclePosition F) :
  vehicle_block (vehicle_record v)
  = "  - **Train ID:** "
      ++ (if PyStr.truthy (pb_vehicle_id v) then pb_vehicle_id v else "Unknown")
      ++ " | **Route:** "
      ++ (if PyStr.truthy (pb_route_id v) then pb_route_id v else "Unknown")
      ++ nl
      ++ "    - **Location:** `"
      ++ f_str (f_round (latitude (pb_position v)) 6) ++ ", "
      ++ f_str (f_round (longitude (pb_position v)) 6) ++ "`" ++ nl
      ++ "    - **Speed:** "
      ++ f_str (f_round (f_mul (match speed (pb_position v) with
                                | Some s => s
                                | None => f_zero
                                end) f_3_6) 2)
      ++ " km/h" ++ nl.
Proof. reflexivity. Qed.

(** X5. Rendering what [parse_feed] extracted gives, character for
    character: the title and "last updated" lines, then the line "No active
    trains detected at the moment." when no entity has vehicle data, and
    otherwise the line "Found **n** active trains." with [n] the number of
    entities that have vehicle data, followed by one block for each of them,
    in feed order, with its identifier, route, rounded coordinates and
    converted speed. *)
Theorem format_markdown_of_feed (clk : Clock) (feed : FeedMessage F) :
  let LF := String "010"%char "" in
  let last_updated :=
    match fst (parse_feed feed) with
    | None => now_text clk
    | Some t =>
        match local_time_text clk t with
        | Some s => s
        | None => now_text clk
        end
    end in
  let block := fun v : VehiclePosition F =>
    "  - **Train ID:** "
      ++ (if PyStr.truthy (pb_vehicle_id v) then pb_vehicle_id v else "Unknown")
      ++ " | **Route:** "
      ++ (if PyStr.truthy (pb_route_id v) then pb_route_id v else "Unknown")
      ++ LF
      ++ "    - **Location:** `"
      ++ f_str (f_round (latitude (pb_position v)) 6) ++ ", "
      ++ f_str (f_round (longitude (pb_position v)) 6) ++ "`" ++ LF
      ++ "    - **Speed:** "
      ++ f_str (f_round (f_mul (match speed (pb_position v) with
                                | Some s => s
                                | None => f_zero
                                end) f_3_6) 2)
      ++ " km/h" ++ LF in
  format_markdown clk (fst (parse_feed feed)) (snd (parse_feed feed))
  = String "239"%char (String "163"%char (String "191"%char
      (String "195"%char (String "188"%char (String "195"%char
        (String "182"%char (String "195"%char (String "165"%char
          " **KTM Train Status Live Update**"))))))))
      ++ LF ++ LF
      ++ "*Last updated: " ++ last_updated ++ "*" ++ LF ++ LF
      ++ match vehicles_of (entity feed) with
         | [] => "No active trains detected at the moment."
         | _ :: _ =>
             "Found **"
               ++ NilEmpty.string_of_uint
                    (Nat.to_uint (List.length (vehicles_of (entity feed))))
               ++ "** active trains." ++ LF ++ LF
               ++ String.concat "" (map block (vehicles_of (entity feed)))
         end.
Proof.
  intros LF last_updated block.
  rewrite format_markdown_lines, concat_blocks_concat, parse_feed_snd.
  rewrite length_map, map_map.
  assert (Hlu : resolve_last_updated clk (fst (parse_feed feed)) = last_updated)
    by reflexivity.
  rewrite Hlu.
  assert (Hmap : map (fun v => vehicle_block (vehicle_record v))
                     (vehicles_of (entity feed))
                 = map block (vehicles_of (entity feed))).
  { apply map_ext. intros v. reflexivity. }
  rewrite Hmap.
  unfold title_line, last_updated_line, count_line, no_trains_line.
  rewrite !append_assoc.
  destruct (vehicles_of (entity feed)); reflexivity.
Qed.

End MoreExtract.

(** ** Retrying HTTP client *)

Section MoreRetry.

Context {F : Type} {RT : PyRuntime F}.
Variable cfg : Config F.
Variable net : network F.

(** Whatever its outcome, a back-off sends nothing and records no request. *)
Lemma back_off_quiet (req : request F) (attempt : Z) (e : exn) (st : state F) :
  sent (snd (back_off cfg req attempt e st)) = sent st
  /\ exists tr, trace (snd (back_off cfg req attempt e st)) = (trace st ++ tr)%list
                /\ count is_request tr = 0.
Proof.
  unfold back_off.
  destruct (f_pow _ _) as [d|].
  - unfold bind, log, emit, push, raise. cbn.
    destruct (sleep_raises d); cbn; (split; [reflexivity|]).
    + eexists. split; [reflexivity|reflexivity].
    + eexists. rewrite <- app_assoc. split; [reflexivity|reflexivity].
  - cbn. split; [reflexivity|]. exists []. now rewrite app_nil_r.
Qed.

Lemma http_loop_bound (req : request F) (k : nat) :
  forall (attempt : Z) (last : option exn) (st : state F),
    sent st <= sent (snd (http_loop cfg net req k attempt last st)) <= sent st + k
    /\ exists tr,
        trace (snd (http_loop cfg net req k attempt last st)) = (trace st ++ tr)%list
        /\ count is_request tr
           = sent (snd (http_loop cfg net req k attempt last st)) - sent st.
Proof.
  induction k as [|k IH]; intros attempt last st.
  - simpl. destruct last; cbn; (split; [lia|]); exists [];
      rewrite app_nil_r, Nat.sub_diag; auto.
  - cbn [http_loop]. unfold catch. rewrite attempt_once_spec.
    set (st0 := {| sent := S (sent st); trace := trace st ++ [EvRequest req] |}).
    assert (Hret : sent st <= sent st0 <= sent st + S k
                   /\ exists tr, trace st0 = (trace st ++ tr)%list
                                 /\ count is_request tr = sent st0 - sent st).
    { subst st0. cbn [sent trace]. split; [lia|].
      exists [EvRequest req]. split; [reflexivity|].
      change (count is_request [EvRequest req]) with 1. lia. }
    assert (Hretry : forall e,
      let r := bind (back_off cfg req attempt e)
                    (fun _ => http_loop cfg net req k (attempt + 1) (Some e)) st0 in
      sent st <= sent (snd r) <= sent st + S k
      /\ exists tr, trace (snd r) = (trace st ++ tr)%list
                    /\ count is_request tr = sent (snd r) - sent st).
    { intros e. cbv zeta. unfold bind.
      destruct (back_off_quiet req attempt e st0) as (Hs & tr1 & Ht & Hc).
      destruct (back_off cfg req attempt e st0) as [[u|e'] st1]; cbn [snd] in *.
      - destruct (IH (attempt + 1)%Z (Some e) st1) as (Hb & tr2 & Ht2 & Hc2).
        rewrite Hs in *. subst st0. cbn [sent trace] in *. split; [lia|].
        exists ([EvRequest req] ++ tr1 ++ tr2)%list. split.
        + rewrite Ht2, Ht. now rewrite <- !app_assoc.
        + rewrite !count_app, Hc, Hc2.
          change (count is_request [EvRequest req]) with 1. lia.
      - rewrite Hs. subst st0. cbn [sent trace] in *. split; [lia|].
        exists ([EvRequest req] ++ tr1)%list. split.
        + rewrite Ht. now rewrite <- !app_assoc.
        + rewrite count_app, Hc.
          change (count is_request [EvRequest req]) with 1. lia. }
    destruct (net (sent st) req) as [r|e].
    + destruct (status_code r >=? 500)%Z; [apply Hretry | exact Hret].
    + apply Hretry.
Qed.

(** X6. Whatever the network answers, one call of [http_request] sends at
    most [MAX_RETRIES] requests (none when [MAX_RETRIES] is not positive),
    only appends to the trace, and the requests it records are the ones it
    sent. *)
Theorem http_request_bounded (method url : string)
        (headers : list (string * string)) (body : option (pyval F))
        (st : state F) :
  let st' := snd (http_request cfg net method url headers body st) in
  sent st <= sent st' <= sent st + Z.to_nat (MAX_RETRIES cfg)
  /\ exists tr, trace st' = (trace st ++ tr)%list
                /\ count is_request tr = sent st' - sent st.
Proof. apply http_loop_bound. Qed.

(** X7. With [MAX_RETRIES <= 0] the loop body never runs: [http_request]
    sends nothing, records nothing and fails on its assertion. *)
Theorem http_request_without_attempts (method url : string)
        (headers : list (string * string)) (body : option (pyval F))
        (st : state F) :
  (MAX_RETRIES cfg <= 0)%Z ->
  http_request cfg net method url headers body st = (Raise AssertionError, st).
Proof.
  intros H. unfold http_request.
  replace (Z.to_nat (MAX_RETRIES cfg)) with 0 by lia. reflexivity.
Qed.

(** One failed attempt followed by a completed back-off. *)
Lemma http_loop_retry (req : request F) (k : nat) (attempt : Z)
      (last : option exn) (st : state F) (e : exn) (d : F) :
  failure_of (net (sent st) req) = Some e ->
  f_pow (RETRY_BACKOFF cfg) (attempt - 1) = Some d ->
  sleep_raises d = None ->
  http_loop cfg net req (S k) attempt last st
  = http_loop cfg net req k (attempt + 1) (Some e)
      {| sent := S (sent st);
         trace := trace st
                    ++ [EvRequest req;
                        EvLog WARNING (LogRetry (req_method req) (req_url req)
                                                attempt (MAX_RETRIES cfg) e d);
                        EvSleep d] |}.
Proof.
  intros Hf Hp Hs. cbn [http_loop]. unfold catch.
  rewrite (attempt_once_fails net req st e Hf).
  unfold bind at 1. unfold back_off. rewrite Hp.
  unfold bind, log, emit, push. cbn. rewrite Hs. cbn.
  now rewrite <- !app_assoc.
Qed.

(** The first [j] attempts fail and are backed off. *)
Lemma http_loop_skip (req : request F) (err : nat -> exn) (delay : nat -> F)
      (j : nat) :
  forall (k i0 : nat) (st : state F) (last : option exn),
    (forall i, i < j ->
               failure_of (net (sent st + i) req) = Some (err (i0 + i))) ->
    (forall i, i < j ->
               f_pow (RETRY_BACKOFF cfg) (Z.of_nat (i0 + i)) = Some (delay (i0 + i))
               /\ sleep_raises (delay (i0 + i)) = None) ->
    http_loop cfg net req (j + k) (Z.of_nat i0 + 1) last st
    = http_loop cfg net req k (Z.of_nat (i0 + j) + 1)
        (match j with O => last | S j' => Some (err (i0 + j')) end)
        {| sent := sent st + j;
           trace := trace st
                      ++ flat_map (failed_attempt cfg req err delay) (seq i0 j) |}.
Proof.
  induction j as [|j IH]; intros k i0 st last Hfail Hdelay.
  - cbn. rewrite !Nat.add_0_r, app_nil_r. now destruct st.
  - pose proof (Hfail 0 (Nat.lt_0_succ j)) as H0.
    pose proof (Hdelay 0 (Nat.lt_0_succ j)) as [Hp Hs].
    rewrite !Nat.add_0_r in *.
    change (S j + k) with (S (j + k)).
    rewrite (http_loop_retry req (j + k) _ last st (err i0) (delay i0) H0);
      [| now replace (Z.of_nat i0 + 1 - 1)%Z with (Z.of_nat i0) by lia
       | exact Hs].
    replace (Z.of_nat i0 + 1 + 1)%Z with (Z.of_nat (S i0) + 1)%Z by lia.
    rewrite (IH k (S i0)).
    + cbn [sent trace seq flat_map failed_attempt].
      replace (S i0 + j) with (i0 + S j) by lia.
      replace (S (sent st) + j) with (sent st + S j) by lia.
      rewrite <- !app_assoc. cbn [app].
      f_equal. destruct j as [|j']; [now rewrite Nat.add_0_r|].
      now replace (S i0 + j') with (i0 + S j') by lia.
    + intros i Hi. cbn [sent].
      replace (S (sent st) + i) with (sent st + S i) by lia.
      replace (S i0 + i) with (i0 + S i) by lia. apply Hfail. lia.
    + intros i Hi. replace (S i0 + i) with (i0 + S i) by lia.
      apply Hdelay. lia.
Qed.

(** X8. If the first [j] attempts fail and their back-off delays are
    accepted, and attempt [j + 1] (within [MAX_RETRIES]) is answered with a
    status below 500, [http_request] returns that response after exactly
    [j + 1] requests, [j] warnings and [j] sleeps. *)
Theorem http_request_recovers (method url : string)
        (headers : list (string * string)) (body : option (pyval F))
        (st : state F) (err : nat -> exn) (delay : nat -> F) (j : nat)
        (resp : response F) :
  let req := {| req_method := method; req_url := url; req_headers := headers;
                req_json := body; req_timeout := HTTP_TIMEOUT cfg |} in
  j < Z.to_nat (MAX_RETRIES cfg) ->
  (forall i, i < j -> failure_of (net (sent st + i) req) = Some (err i)) ->
  (forall i, i < j ->
             f_pow (RETRY_BACKOFF cfg) (Z.of_nat i) = Some (delay i)
             /\ sleep_raises (delay i) = None) ->
  net (sent st + j) req = Returned resp ->
  (status_code resp < 500)%Z ->
  http_request cfg net method url headers body st
  = (Ok resp,
     {| sent := sent st + j + 1;
        trace := trace st
                   ++ flat_map (failed_attempt cfg req err delay) (seq 0 j)
                   ++ [EvRequest req] |}).
Proof.
  intros req Hj Hfail Hdelay Hnet Hsc. unfold http_request. fold req.
  replace (Z.to_nat (MAX_RETRIES cfg))
    with (j + S (Z.to_nat (MAX_RETRIES cfg) - S j)) by lia.
  change 1%Z with (Z.of_nat 0 + 1)%Z.
  rewrite (http_loop_skip req err delay j _ 0 st None Hfail Hdelay).
  cbn [http_loop]. unfold catch. rewrite attempt_once_spec. cbn [sent trace].
  rewrite Hnet.
  assert (Hlt : (status_code resp >=? 500)%Z = false).
  { rewrite Z.geb_leb. apply Z.leb_gt. exact Hsc. }
  rewrite Hlt. f_equal. f_equal; [lia|]. now rewrite <- app_assoc.
Qed.

(** X9. If, after [j] backed-off failures, attempt [j + 1] fails too and its
    back-off cannot be carried out (the delay overflows, or [time.sleep]
    rejects it), the error of the back-off is what [http_request] raises, in
    place of the HTTP error, and no further attempt is made. *)
Theorem http_request_backoff_error (method url : string)
        (headers : list (string * string)) (body : option (pyval F))
        (st : state F) (err : nat -> exn) (delay : nat -> F) (j : nat)
        (e x : exn) :
  let req := {| req_method := method; req_url := url; req_headers := headers;
                req_json := body; req_timeout := HTTP_TIMEOUT cfg |} in
  j < Z.to_nat (MAX_RETRIES cfg) ->
  (forall i, i < j -> failure_of (net (sent st + i) req) = Some (err i)) ->
  (forall i, i < j ->
             f_pow (RETRY_BACKOFF cfg) (Z.of_nat i) = Some (delay i)
             /\ sleep_raises (delay i) = None) ->
  failure_of (net (sent st + j) req) = Some e ->
  (f_pow (RETRY_BACKOFF cfg) (Z.of_nat j) = None /\ x = OverflowError)
  \/ (exists d, f_pow (RETRY_BACKOFF cfg) (Z.of_nat j) = Some d
                /\ sleep_raises d = Some x) ->
  fst (http_request cfg net method url headers body st) = Raise x
  /\ sent (snd (http_request cfg net method url headers body st))
     = sent st + j + 1.
Proof.
  intros req Hj Hfail Hdelay Hf Hback. unfold http_request. fold req.
  replace (Z.to_nat (MAX_RETRIES cfg))
    with (j + S (Z.to_nat (MAX_RETRIES cfg) - S j)) by lia.
  change 1%Z with (Z.of_nat 0 + 1)%Z.
  rewrite (http_loop_skip req err delay j _ 0 st None Hfail Hdelay).
  cbn [http_loop]. unfold catch.
  erewrite attempt_once_fails; [| cbn [sent]; exact Hf]. cbn [sent trace].
  unfold bind at 1. unfold back_off. cbn [Nat.add].
  replace (Z.of_nat j + 1 - 1)%Z with (Z.of_nat j) by lia.
  destruct Hback as [[Hp ->] | (d & Hp & Hs)]; rewrite Hp.
  - cbn. split; [reflexivity | lia].
  - unfold bind, log, emit, push. cbn. rewrite Hs. cbn.
    split; [reflexivity | lia].
Qed.

End MoreRetry.

(** ** Feed fetch *)

Section MoreFetch.

Context {F : Type} {RT : PyRuntime F}.
Variable cfg : Config F.
Variable net : network F.

(** X10. [fetch_gtfs_realtime_feed] never retries: whatever the answer, it
    logs once and sends exactly one request.  It returns a feed exactly when
    that request is answered with a status outside 400..599 and a body that
    decodes. *)
Theorem fetch_sends_one_request (url : string) (st : state F) :
  snd (fetch_gtfs_realtime_feed cfg net url st)
  = {| sent := S (sent st);
       trace := trace st ++ [EvLog INFO (LogFetching url);
                             EvRequest (feed_request cfg url)] |}
  /\ (forall feed,
        fst (fetch_gtfs_realtime_feed cfg net url st) = Ok feed
        <-> exists resp,
              net (sent st) (feed_request cfg url) = Returned resp
              /\ is_error_status (status_code resp) = false
              /\ content_feed resp = Some feed).
Proof.
  unfold fetch_gtfs_realtime_feed, bind, log, emit, push, send, raise_for_status,
    raise, ret, is_error_status.
  cbn [sent trace]. fold (feed_request cfg url).
  destruct (net (sent st) (feed_request cfg url)) as [resp|e].
  - destruct ((400 <=? status_code resp)%Z && (status_code resp <? 500)%Z) eqn:H4.
    + cbn. rewrite <- app_assoc. split; [reflexivity|].
      intros feed. split; [discriminate|].
      intros (r & Hr & Hs & _). injection Hr as <-.
      apply andb_true_iff in H4. destruct H4 as [Ha Hb].
      rewrite Ha in Hs. cbn in Hs.
      apply Z.ltb_lt in Hb. apply Z.ltb_ge in Hs. lia.
    + destruct ((500 <=? status_code resp)%Z && (status_code resp <? 600)%Z) eqn:H5.
      * cbn. rewrite <- app_assoc. split; [reflexivity|].
        intros feed. split; [discriminate|].
        intros (r & Hr & Hs & _). injection Hr as <-.
        apply andb_true_iff in H5. destruct H5 as [Ha Hb].
        rewrite Hb, andb_true_r in Hs.
        apply Z.leb_le in Ha. apply Z.leb_gt in Hs. lia.
      * assert (Hok : (400 <=? status_code resp)%Z && (status_code resp <? 600)%Z
                      = false).
        { apply andb_false_iff. apply andb_false_iff in H4, H5.
          destruct H4 as [H4|H4]; [now left|].
          destruct H5 as [H5|H5]; [|now right].
          apply Z.ltb_ge in H4. apply Z.leb_gt in H5. lia. }
        destruct (content_feed resp) as [feed0|] eqn:Hc; cbn;
          rewrite <- app_assoc; (split; [reflexivity|]); intros feed; split.
        -- intros H. injection H as <-. exists resp. auto.
        -- intros (r & Hr & _ & Hf). injection Hr as <-. congruence.
        -- discriminate.
        -- intros (r & Hr & _ & Hf). injection Hr as <-. congruence.
  - cbn. rewrite <- app_assoc. split; [reflexivity|].
    intros feed. split; [discriminate|]. intros (r & Hr & _). discriminate.
Qed.

End MoreFetch.

(** ** Client and orchestrator *)

Section MoreRun.

Context {F : Type} {RT : PyRuntime F}.
Variable cfg : Config F.
Variable clk : Clock.
Variable net : network F.

Ltac hush :=
  repeat first
    [ apply silent_bind; [|intros ?]
    | apply silent_catch; [|intros ?]
    | apply silent_http_request
    | solve [auto with silent]
    | match goal with
      | |- silent (if ?b then _ else _) => destruct b
      | |- silent (match ?x with _ => _ end) => destruct x
      end ].

Lemma enters_entry {A} (c : client_call) (m : M F A) (cs : list client_call) :
  enters m cs -> enters (bind (emit (EvCall c)) (fun _ => m)) (c :: cs).
Proof.
  intros Hm st. unfold bind, emit. rewrite Hm. unfold push. cbn [trace].
  rewrite calls_of_app. cbn. now rewrite <- app_assoc.
Qed.

Lemma silent_enters {A} (m : M F A) : silent m -> enters m [].
Proof. intros H st. rewrite H. now rewrite app_nil_r. Qed.

Lemma enters_bind_silent {A B} (m : M F A) (k : A -> M F B)
      (cs : list client_call) :
  enters m cs -> (forall a, silent (k a)) -> enters (bind m k) cs.
Proof.
  intros Hm Hk st. unfold bind. specialize (Hm st).
  destruct (m st) as [[a|e] st1]; cbn [snd] in *.
  - now rewrite Hk.
  - assumption.
Qed.

Lemma silent_scan_tasks (items : list (pyval F)) (title : string) :
  silent (scan_tasks items title).
Proof.
  induction items as [|it rest IH]; cbn [scan_tasks]; [hush|].
  apply silent_bind; [hush|]. intros t.
  apply silent_bind; [hush|]. intros _.
  destruct (exact_match t title); [hush|].
  destruct (keyword_match t); [hush | exact IH].
Qed.

Lemma list_tasks_enters (self : TaskadeClient) (project : string) :
  enters (list_tasks cfg net self project) [CallListTasks project].
Proof.
  unfold list_tasks. apply enters_entry, silent_enters.
  unfold resp_json. hush.
Qed.

Lemma find_task_by_title_enters (self : TaskadeClient) (project title : string) :
  enters (find_task_by_title cfg net self project title)
         [CallFindTaskByTitle project title; CallListTasks project].
Proof.
  unfold find_task_by_title. apply enters_entry.
  apply enters_bind_silent; [apply list_tasks_enters|].
  intros items. pose proof silent_scan_tasks. hush.
Qed.

Lemma create_task_enters (self : TaskadeClient) (project content : string)
      (title : option string) :
  enters (create_task cfg net self project content title)
         [CallCreateTask project content
                         (match title with Some s => s | None => "" end)].
Proof.
  unfold create_task. apply enters_entry, silent_enters.
  unfold resp_json. hush.
Qed.

Lemma update_task_enters (self : TaskadeClient) (task_id content : string) :
  enters (update_task cfg net self task_id content)
         [CallUpdateTask task_id content].
Proof. intros st. apply update_task_calls. Qed.

(** The shapes of the method entries of one upsert. *)
Lemma upsert_calls (client : TaskadeClient) (content : string) (st : state F) :
  exists cs,
    calls_of (trace (snd (upsert cfg net client content st)))
    = (calls_of (trace st) ++ cs)%list
    /\ ((exists id, cs = [CallUpdateTask id content])
        \/ cs = [CallFindTaskByTitle (TASKADE_PROJECT_ID cfg) DASHBOARD_TITLE;
                 CallListTasks (TASKADE_PROJECT_ID cfg)]
        \/ (exists id,
               cs = [CallFindTaskByTitle (TASKADE_PROJECT_ID cfg) DASHBOARD_TITLE;
                     CallListTasks (TASKADE_PROJECT_ID cfg);
                     CallUpdateTask id content])
        \/ cs = [CallFindTaskByTitle (TASKADE_PROJECT_ID cfg) DASHBOARD_TITLE;
                 CallListTasks (TASKADE_PROJECT_ID cfg);
                 CallCreateTask (TASKADE_PROJECT_ID cfg) content DASHBOARD_TITLE]).
Proof.
  assert (Hcreate : enters (create_new cfg net client content)
                      [CallCreateTask (TASKADE_PROJECT_ID cfg) content
                                      DASHBOARD_TITLE]).
  { unfold create_new. intros s.
    unfold bind at 1. unfold log at 1, emit at 1.
    assert (H : enters (bind (create_task cfg net client (TASKADE_PROJECT_ID cfg)
                                content (Some DASHBOARD_TITLE))
                             (fun created =>
                                bind (lift (id_of created))
                                  (fun new_id =>
                                     bind (if PyStr.truthy new_id
                                           then bind (log INFO (LogCreatedId new_id))
                                                  (fun _ => print_task_id new_id)
                                           else log WARNING LogCreatedNoId)
                                          (fun _ => ret 0%Z))))
                       [CallCreateTask (TASKADE_PROJECT_ID cfg) content
                                       DASHBOARD_TITLE]).
    { apply enters_bind_silent; [apply create_task_enters|].
      intros created. unfold print_task_id. hush. }
    rewrite H. unfold push. cbn [trace]. rewrite calls_of_app. cbn.
    now rewrite app_nil_r. }
  unfold upsert.
  destruct (PyStr.truthy (if PyStr.truthy (TASKADE_TASK_ID cfg)
                          then str_strip (TASKADE_TASK_ID cfg) else "")).
  - (* a configured identifier *)
    eexists. split; [|left; eexists; reflexivity].
    unfold bind at 1. unfold log at 1, emit at 1.
    assert (H : enters (bind (update_task cfg net client
                                (if PyStr.truthy (TASKADE_TASK_ID cfg)
                                 then str_strip (TASKADE_TASK_ID cfg) else "")
                                content)
                             (fun _ => bind (log INFO LogUpdateComplete)
                                            (fun _ => ret 0%Z)))
                       [CallUpdateTask
                          (if PyStr.truthy (TASKADE_TASK_ID cfg)
                           then str_strip (TASKADE_TASK_ID cfg) else "")
                          content]).
    { apply enters_bind_silent; [apply update_task_enters|]. intros _. hush. }
    rewrite H. unfold push. cbn [trace]. rewrite calls_of_app. cbn.
    now rewrite app_nil_r.
  - (* the search *)
    unfold bind at 1. unfold log at 1, emit at 1.
    set (s1 := push _ st).
    assert (Hs1 : calls_of (trace s1) = calls_of (trace st)).
    { subst s1. unfold push. cbn [trace]. rewrite calls_of_app. cbn.
      now rewrite app_nil_r. }
    unfold bind at 1.
    pose proof (find_task_by_title_enters client (TASKADE_PROJECT_ID cfg)
                  DASHBOARD_TITLE s1) as Hfind.
    rewrite Hs1 in Hfind.
    destruct (find_task_by_title cfg net client (TASKADE_PROJECT_ID cfg)
                DASHBOARD_TITLE s1) as [[existing|e] s2]; cbn [snd] in Hfind.
    + assert (Hc : calls_of (trace (snd (create_new cfg net client content s2)))
                   = (calls_of (trace st)
                        ++ [CallFindTaskByTitle (TASKADE_PROJECT_ID cfg) DASHBOARD_TITLE;
                            CallListTasks (TASKADE_PROJECT_ID cfg);
                            CallCreateTask (TASKADE_PROJECT_ID cfg) content
                                           DASHBOARD_TITLE])%list).
      { rewrite Hcreate, Hfind. now rewrite <- app_assoc. }
      destruct existing as [it|]; [|eexists; split; [exact Hc | auto]].
      destruct (py_truthy it); [|eexists; split; [exact Hc | auto]].
      unfold bind at 1. unfold lift at 1.
      destruct (id_of it) as [discovered_id|e].
      * destruct (negb (PyStr.truthy discovered_id)).
        -- eexists. split; [|right; right; right; reflexivity].
           unfold bind at 1. unfold log at 1, emit at 1.
           rewrite Hcreate. unfold push. cbn [trace].
           rewrite calls_of_app, Hfind. cbn.
           now rewrite app_nil_r, <- app_assoc.
        -- eexists. split; [|right; right; left; eexists; reflexivity].
           unfold bind at 1. unfold log at 1, emit at 1.
           assert (H : enters (bind (update_task cfg net client discovered_id content)
                                    (fun _ => bind (print_task_id discovered_id)
                                                   (fun _ => ret 0%Z)))
                              [CallUpdateTask discovered_id content]).
           { apply enters_bind_silent; [apply update_task_enters|].
             intros _. unfold print_task_id. hush. }
           rewrite H. unfold push. cbn [trace].
           rewrite calls_of_app, Hfind. cbn.
           now rewrite app_nil_r, <- app_assoc.
      * eexists. split; [exact Hfind | auto].
    + eexists. split; [exact Hfind | auto].
Qed.

(** X11. In one run the orchestrator enters at most one writing method of
    the client ([update_task] or [create_task], never both and never twice)
    and [find_task_by_title] at most once; a write after a search follows
    exactly one listing. *)
Theorem run_writes_at_most_once :
  exists cs,
    calls_of (trace (snd (run cfg clk net))) = cs
    /\ (cs = []
        \/ (exists id content, cs = [CallUpdateTask id content])
        \/ cs = [CallFindTaskByTitle (TASKADE_PROJECT_ID cfg) DASHBOARD_TITLE;
                 CallListTasks (TASKADE_PROJECT_ID cfg)]
        \/ (exists id content,
               cs = [CallFindTaskByTitle (TASKADE_PROJECT_ID cfg) DASHBOARD_TITLE;
                     CallListTasks (TASKADE_PROJECT_ID cfg);
                     CallUpdateTask id content])
        \/ (exists content,
               cs = [CallFindTaskByTitle (TASKADE_PROJECT_ID cfg) DASHBOARD_TITLE;
                     CallListTasks (TASKADE_PROJECT_ID cfg);
                     CallCreateTask (TASKADE_PROJECT_ID cfg) content
                                    DASHBOARD_TITLE]))
    /\ List.length (filter is_update cs) + List.length (filter is_create cs) <= 1
    /\ List.length (filter is_find cs) <= 1.
Proof.
  assert (Hshape :
    exists cs,
      calls_of (trace (snd (run cfg clk net))) = cs
      /\ (cs = []
          \/ (exists id content, cs = [CallUpdateTask id content])
          \/ cs = [CallFindTaskByTitle (TASKADE_PROJECT_ID cfg) DASHBOARD_TITLE;
                   CallListTasks (TASKADE_PROJECT_ID cfg)]
          \/ (exists id content,
                 cs = [CallFindTaskByTitle (TASKADE_PROJECT_ID cfg) DASHBOARD_TITLE;
                       CallListTasks (TASKADE_PROJECT_ID cfg);
                       CallUpdateTask id content])
          \/ (exists content,
                 cs = [CallFindTaskByTitle (TASKADE_PROJECT_ID cfg) DASHBOARD_TITLE;
                       CallListTasks (TASKADE_PROJECT_ID cfg);
                       CallCreateTask (TASKADE_PROJECT_ID cfg) content
                                      DASHBOARD_TITLE]))).
  { unfold run, main.
    destruct (negb (PyStr.truthy (TASKADE_PROJECT_ID cfg)));
      [eexists; split; [reflexivity | left; reflexivity]|].
    destruct (negb (PyStr.truthy (TASKADE_API_TOKEN cfg)));
      [eexists; split; [reflexivity | left; reflexivity]|].
    unfold catch.
    assert (Hbody :
      exists cs,
        calls_of (trace (snd (main_body cfg clk net initial))) = cs
        /\ (cs = []
            \/ (exists id content, cs = [CallUpdateTask id content])
            \/ cs = [CallFindTaskByTitle (TASKADE_PROJECT_ID cfg) DASHBOARD_TITLE;
                     CallListTasks (TASKADE_PROJECT_ID cfg)]
            \/ (exists id content,
                   cs = [CallFindTaskByTitle (TASKADE_PROJECT_ID cfg) DASHBOARD_TITLE;
                         CallListTasks (TASKADE_PROJECT_ID cfg);
                         CallUpdateTask id content])
            \/ (exists content,
                   cs = [CallFindTaskByTitle (TASKADE_PROJECT_ID cfg) DASHBOARD_TITLE;
                         CallListTasks (TASKADE_PROJECT_ID cfg);
                         CallCreateTask (TASKADE_PROJECT_ID cfg) content
                                        DASHBOARD_TITLE]))).
    { unfold main_body. unfold bind at 1. unfold lift at 1.
      destruct (new_client TASKADE_BASE_URL (TASKADE_API_TOKEN cfg)) as [client|e];
        [|eexists; split; [reflexivity | left; reflexivity]].
      unfold bind at 1. unfold log at 1, emit at 1.
      unfold bind at 1.
      pose proof (silent_fetch cfg net GTFSR_URL (push (EvLog INFO LogStart) initial))
        as Hf.
      destruct (fetch_gtfs_realtime_feed cfg net GTFSR_URL _) as [[feed|e] s1];
        cbn [snd] in Hf; cbn in Hf.
      - destruct (parse_feed feed) as [feed_ts vehicles].
        destruct (upsert_calls client (format_markdown clk feed_ts vehicles) s1)
          as (cs & Hcs & Hshape).
        rewrite Hf in Hcs. cbn in Hcs.
        exists cs. split; [exact Hcs|].
        destruct Hshape as [(id & ->) | [-> | [(id & ->) | ->]]]; eauto 8.
      - eexists. split; [exact Hf | left; reflexivity]. }
    destruct Hbody as (cs & Hcs & Hshape).
    destruct (main_body cfg clk net initial) as [[z|e] s]; cbn [snd] in Hcs.
    - exists cs. split; [exact Hcs | exact Hshape].
    - exists cs. split; [|exact Hshape].
      now rewrite (silent_on_error e s). }
  destruct Hshape as (cs & Hcs & Hshape).
  exists cs. split; [exact Hcs|]. split; [exact Hshape|].
  destruct Hshape as [-> | [(id & c & ->) | [-> | [(id & c & ->) | (c & ->)]]]];
    cbn; lia.
Qed.

End MoreRun.

Section MoreOutcomes.

Context {F : Type} {RT : PyRuntime F}.
Variable cfg : Config F.
Variable clk : Clock.
Variable net : network F.

Lemma create_new_returns_0 (client : TaskadeClient) (content : string)
      (st st' : state F) (z : Z) :
  create_new cfg net client content st = (Ok z, st') -> z = 0%Z.
Proof.
  unfold create_new, bind, log, emit, ret, lift, print_task_id.
  destruct (create_task cfg net client _ _ _ _) as [[created|e] s1];
    [|discriminate].
  destruct (id_of created) as [new_id|e]; [|discriminate].
  destruct (PyStr.truthy new_id); intros H; now injection H.
Qed.

Lemma upsert_returns_0 (client : TaskadeClient) (content : string)
      (st st' : state F) (z : Z) :
  upsert cfg net client content st = (Ok z, st') -> z = 0%Z.
Proof.
  unfold upsert.
  destruct (PyStr.truthy (if PyStr.truthy (TASKADE_TASK_ID cfg)
                          then str_strip (TASKADE_TASK_ID cfg) else "")).
  - unfold bind, log, emit, ret.
    destruct (update_task cfg net client _ _ _) as [[v|e] s1];
      intros H; [now injection H | discriminate].
  - unfold bind at 1. unfold log at 1, emit at 1. unfold bind at 1.
    destruct (find_task_by_title cfg net client _ _ _) as [[existing|e] s2];
      [|discriminate].
    destruct existing as [it|]; [|apply create_new_returns_0].
    destruct (py_truthy it); [|apply create_new_returns_0].
    unfold bind at 1. unfold lift at 1.
    destruct (id_of it) as [discovered_id|e]; [|discriminate].
    destruct (negb (PyStr.truthy discovered_id)).
    + unfold bind at 1. unfold log at 1, emit at 1. apply create_new_returns_0.
    + unfold bind, log, emit, ret, print_task_id.
      destruct (update_task cfg net client _ _ _) as [[v|e] s3];
        intros H; [now injection H | discriminate].
Qed.

Lemma main_body_returns_0 (st st' : state F) (z : Z) :
  main_body cfg clk net st = (Ok z, st') -> z = 0%Z.
Proof.
  unfold main_body. unfold bind at 1. unfold lift at 1.
  destruct (new_client _ _) as [client|e]; [|discriminate].
  unfold bind at 1. unfold log at 1, emit at 1. unfold bind at 1.
  destruct (fetch_gtfs_realtime_feed cfg net GTFSR_URL _) as [[feed|e] s1];
    [|discriminate].
  destruct (parse_feed feed). apply upsert_returns_0.
Qed.

(** X12. [main] never lets an exception escape and returns 0, 1 or 2: 2
    exactly when the project identifier or the token is empty, and otherwise
    0 when its [try] block completes and 1 when the block raises. *)
Theorem main_exit_codes (st : state F) :
  exists code st',
    main cfg clk net st = (Ok code, st')
    /\ (code = 0 \/ code = 1 \/ code = 2)%Z
    /\ (code = 2%Z
        <-> TASKADE_PROJECT_ID cfg = "" \/ TASKADE_API_TOKEN cfg = "")
    /\ (code = 1%Z
        <-> TASKADE_PROJECT_ID cfg <> "" /\ TASKADE_API_TOKEN cfg <> ""
            /\ exists e, fst (main_body cfg clk net st) = Raise e).
Proof.
  unfold main.
  destruct (TASKADE_PROJECT_ID cfg) as [|c p] eqn:Hp.
  { cbn. do 2 eexists. split; [reflexivity|].
    split; [lia|]. split; split; intros H; try lia; auto.
    destruct H as (H & _). congruence. }
  destruct (TASKADE_API_TOKEN cfg) as [|c' t] eqn:Ht.
  { cbn. do 2 eexists. split; [reflexivity|].
    split; [lia|]. split; split; intros H; try lia; auto.
    destruct H as (_ & H & _). congruence. }
  cbn [PyStr.truthy negb]. unfold catch.
  destruct (main_body cfg clk net st) as [[z|e] s] eqn:Hb.
  - apply main_body_returns_0 in Hb. subst z.
    do 2 eexists. split; [reflexivity|].
    split; [lia|]. split; split; intros H; try lia.
    + destruct H; discriminate.
    + destruct H as (_ & _ & e & He). discriminate.
  - destruct (on_error_exit e s) as (Hexit & _).
    destruct (on_error e s) as [r s'] eqn:Ho. cbn in Hexit. subst r.
    do 2 eexists. split; [reflexivity|].
    split; [lia|]. split; split; intros H; try lia.
    + destruct H; discriminate.
    + repeat split; try discriminate. exists e. reflexivity.
Qed.

Lemma fetch_state (url : string) (st : state F) :
  snd (fetch_gtfs_realtime_feed cfg net url st)
  = {| sent := S (sent st);
       trace := trace st ++ [EvLog INFO (LogFetching url);
                             EvRequest (feed_request cfg url)] |}.
Proof.
  unfold fetch_gtfs_realtime_feed, bind, log, emit, push, send, raise_for_status,
    raise, ret.
  cbn [sent trace]. fold (feed_request cfg url).
  destruct (net (sent st) (feed_request cfg url)) as [resp|e];
    [|cbn; now rewrite <- app_assoc].
  destruct (_ && _); [cbn; now rewrite <- app_assoc|].
  destruct (_ && _); [cbn; now rewrite <- app_assoc|].
  destruct (content_feed resp); cbn; now rewrite <- app_assoc.
Qed.

(** X13. If the feed cannot be fetched or decoded, a run with a complete
    configuration enters no method of the client, has sent exactly one
    request, logs an error and exits with status 1. *)
Theorem fetch_failure_exits_1 (e : exn) (s1 : state F) :
  TASKADE_PROJECT_ID cfg <> "" ->
  TASKADE_API_TOKEN cfg <> "" ->
  fetch_gtfs_realtime_feed cfg net GTFSR_URL
                           (push (EvLog INFO LogStart) initial)
  = (Raise e, s1) ->
  fst (run cfg clk net) = Ok 1%Z
  /\ calls_of (trace (snd (run cfg clk net))) = []
  /\ sent (snd (run cfg clk net)) = 1
  /\ count is_request (trace (snd (run cfg clk net))) = 1
  /\ exists m, In (EvLog ERROR m) (trace (snd (run cfg clk net))).
Proof.
  intros Hp Ht Hfetch.
  assert (Hrun : run cfg clk net = on_error e s1).
  { unfold run. rewrite (main_complete _ _ _ _ Hp Ht). unfold catch, main_body.
    rewrite (new_client_ok _ Ht).
    unfold bind at 1. unfold lift at 1.
    unfold bind at 1. unfold log at 1, emit at 1.
    unfold bind at 1. now rewrite Hfetch. }
  pose proof (fetch_state GTFSR_URL (push (EvLog INFO LogStart) initial))
    as Hs1.
  rewrite Hfetch in Hs1. cbn in Hs1. subst s1.
  rewrite Hrun. clear Hrun Hfetch.
  unfold on_error, bind, log, emit, push, ret.
  destruct (is_RequestException e).
  - destruct e as [msg [b|]| | | | | | | | | |]; cbn;
      repeat split; eexists; do 3 right; left; reflexivity.
  - destruct (is_KeyError e); cbn; repeat split;
      eexists; do 3 right; left; reflexivity.
Qed.

End MoreOutcomes.

Section MoreClient.

Context {F : Type} {RT : PyRuntime F}.
Variable cfg : Config F.
Variable clk : Clock.
Variable net : network F.

(** An answer below 500 to the first attempt is returned at once. *)
Lemma http_request_first_answer (method url : string)
      (headers : list (string * string)) (body : option (pyval F))
      (st : state F) (resp : response F) :
  let req := {| req_method := method; req_url := url; req_headers := headers;
                req_json := body; req_timeout := HTTP_TIMEOUT cfg |} in
  (1 <= MAX_RETRIES cfg)%Z ->
  net (sent st) req = Returned resp ->
  (status_code resp < 500)%Z ->
  http_request cfg net method url headers body st
  = (Ok resp, {| sent := S (sent st); trace := trace st ++ [EvRequest req] |}).
Proof.
  intros req Hmax Hnet Hsc. unfold http_request. fold req.
  destruct (Z.to_nat (MAX_RETRIES cfg)) as [|k] eqn:E; [lia|].
  cbn [http_loop]. unfold catch. rewrite attempt_once_spec, Hnet.
  assert (Hlt : (status_code resp >=? 500)%Z = false).
  { rewrite Z.geb_leb. apply Z.leb_gt. exact Hsc. }
  now rewrite Hlt.
Qed.

(** X14. When the first attempt of [update_task] is answered with a status
    below 500, the update sends exactly that one request: it succeeds on 200
    and 204 and raises [RuntimeError] on every other status, 4xx included,
    without retrying. *)
Theorem update_task_single_answer (client : TaskadeClient)
        (task_id content : string) (st : state F) (resp : response F) :
  let req := update_request cfg client task_id content in
  let st1 := {| sent := S (sent st);
                trace := trace st
                           ++ [EvCall (CallUpdateTask task_id content);
                               EvLog INFO (LogUpdating task_id (req_url req));
                               EvRequest req] |} in
  (1 <= MAX_RETRIES cfg)%Z ->
  net (sent st) req = Returned resp ->
  (status_code resp < 500)%Z ->
  update_task cfg net client task_id content st
  = if (status_code resp =? 200)%Z || (status_code resp =? 204)%Z
    then (Ok (VDict [("task_id", VStr task_id)]),
          push (EvLog INFO (LogUpdated task_id)) st1)
    else (Raise (RuntimeError ("Update task failed: "
                                 ++ PyStr.of_Z (status_code resp) ++ " "
                                 ++ text resp)),
          st1).
Proof.
  intros req st1 Hmax Hnet Hsc. unfold update_task.
  unfold bind at 1. unfold emit at 1.
  unfold bind at 1. unfold log at 1, emit at 1.
  unfold bind at 1.
  rewrite (http_request_first_answer _ _ _ _ _ resp Hmax);
    [| exact Hnet | exact Hsc].
  unfold push. cbn [sent trace]. rewrite <- !app_assoc. cbn [app].
  fold req. fold st1.
  destruct ((status_code resp =? 200)%Z || (status_code resp =? 204)%Z);
    reflexivity.
Qed.

(** The end of [create_task] and [create_new] once the response is in. *)
Lemma main_after_create (s0 st st1 : state F) (client : TaskadeClient)
      (content : string) (resp : response F) (data v : pyval F) :
  TASKADE_PROJECT_ID cfg <> "" ->
  TASKADE_API_TOKEN cfg <> "" ->
  takes_create_branch cfg clk net s0 client content st ->
  http_request cfg net "POST" (req_url (create_request cfg client content))
               (headers client)
               (Some (create_payload content (Some DASHBOARD_TITLE)))
               (at_create_request cfg client content st)
  = (Ok resp, st1) ->
  (status_code resp = 200 \/ status_code resp = 201)%Z ->
  json_body resp = Some data ->
  created_id data = Ok v ->
  main cfg clk net s0
  = bind (if PyStr.truthy (if py_truthy v then py_str v else "")
          then bind (log INFO (LogCreatedId (if py_truthy v then py_str v else "")))
                    (fun _ => print_task_id (if py_truthy v then py_str v else ""))
          else log WARNING LogCreatedNoId)
         (fun _ => ret 0%Z)
         (push (EvLog INFO (LogCreated v))
               (push (EvLog INFO (LogCreateResponse data)) st1)).
Proof.
  intros Hp Ht Hbranch Hreq Hsc Hjson Hid.
  rewrite (main_complete _ _ _ _ Hp Ht). unfold catch.
  rewrite Hbranch. unfold create_new.
  unfold bind at 1. unfold log at 1, emit at 1.
  unfold bind at 1. unfold create_task.
  unfold bind at 1. unfold emit at 1.
  unfold bind at 1. unfold log at 1, emit at 1.
  unfold at_create_request, create_request in Hreq. cbn [req_url] in Hreq.
  unfold bind at 1. rewrite Hreq.
  assert (Hok : negb ((status_code resp =? 200)%Z || (status_code resp =? 201)%Z)
                = false).
  { destruct Hsc as [-> | ->]; reflexivity. }
  rewrite Hok. unfold resp_json. rewrite Hjson.
  unfold bind at 1. unfold ret at 1.
  unfold bind at 1. unfold log at 1, emit at 1.
  unfold catch. unfold bind at 1. unfold lift at 1. rewrite Hid.
  unfold bind at 1. unfold log at 1, emit at 1. unfold ret at 1.
  unfold bind at 1. unfold lift at 1.
  assert (Hnew : id_of (VDict [("id", v); ("response", data)])
                 = Ok (if py_truthy v then py_str v else "")).
  { unfold id_of. cbn. destruct (py_truthy v); reflexivity. }
  rewrite Hnew.
  set (new_id := if py_truthy v then py_str v else "").
  unfold bind, ret, log, emit, print_task_id.
  destruct (PyStr.truthy new_id); reflexivity.
Qed.

(** X15. On the create branch, when the create request is answered with
    status 200 or 201 and the body holds a truthy identifier at
    ['item'][0]['id'] whose string form is not empty, the run prints
    [{"TASKADE_TASK_ID": str(id)}] and exits with status 0. *)
Theorem create_prints_new_id (s0 st st1 : state F) (client : TaskadeClient)
        (content : string) (resp : response F) (data v : pyval F) :
  TASKADE_PROJECT_ID cfg <> "" ->
  TASKADE_API_TOKEN cfg <> "" ->
  takes_create_branch cfg clk net s0 client content st ->
  http_request cfg net "POST" (req_url (create_request cfg client content))
               (headers client)
               (Some (create_payload content (Some DASHBOARD_TITLE)))
               (at_create_request cfg client content st)
  = (Ok resp, st1) ->
  (status_code resp = 200 \/ status_code resp = 201)%Z ->
  json_body resp = Some data ->
  created_id data = Ok v ->
  py_truthy v = true ->
  py_str v <> "" ->
  main cfg clk net s0
  = (Ok 0%Z,
     push (EvPrintJson (VDict [("TASKADE_TASK_ID", VStr (py_str v))]))
       (push (EvLog INFO (LogCreatedId (py_str v)))
          (push (EvLog INFO (LogCreated v))
             (push (EvLog INFO (LogCreateResponse data)) st1)))).
Proof.
  intros Hp Ht Hbranch Hreq Hsc Hjson Hid Hv Hstr.
  rewrite (main_after_create _ _ _ _ _ _ _ _ Hp Ht Hbranch Hreq Hsc Hjson Hid).
  rewrite Hv. apply truthy_iff in Hstr. rewrite Hstr. reflexivity.
Qed.

(** X16. On the create branch, when the create request is answered with
    status 200 or 201 and the identifier at ['item'][0]['id'] is falsy
    ([None], an empty string, zero), the task has been created but its
    identifier is not printed: the run logs a warning and still exits with
    status 0. *)
Theorem create_without_usable_id (s0 st st1 : state F) (client : TaskadeClient)
        (content : string) (resp : response F) (data v : pyval F) :
  TASKADE_PROJECT_ID cfg <> "" ->
  TASKADE_API_TOKEN cfg <> "" ->
  takes_create_branch cfg clk net s0 client content st ->
  http_request cfg net "POST" (req_url (create_request cfg client content))
               (headers client)
               (Some (create_payload content (Some DASHBOARD_TITLE)))
               (at_create_request cfg client content st)
  = (Ok resp, st1) ->
  (status_code resp = 200 \/ status_code resp = 201)%Z ->
  json_body resp = Some data ->
  created_id data = Ok v ->
  py_truthy v = false ->
  main cfg clk net s0
  = (Ok 0%Z,
     push (EvLog WARNING LogCreatedNoId)
       (push (EvLog INFO (LogCreated v))
          (push (EvLog INFO (LogCreateResponse data)) st1))).
Proof.
  intros Hp Ht Hbranch Hreq Hsc Hjson Hid Hv.
  rewrite (main_after_create _ _ _ _ _ _ _ _ Hp Ht Hbranch Hreq Hsc Hjson Hid).
  rewrite Hv. reflexivity.
Qed.

(** What [find_task_by_title] returns is what its loop returns on the
    elements of the listing. *)
Lemma find_task_by_title_loop (self : TaskadeClient) (project title : string)
      (st : state F) (r : option (pyval F)) :
  fst (find_task_by_title cfg net self project title st) = Ok r ->
  exists elems st', fst (scan_tasks elems title st') = Ok r.
Proof.
  unfold find_task_by_title.
  unfold bind at 1. unfold emit at 1. unfold bind at 1.
  destruct (list_tasks cfg net self project _) as [[items|e] s1];
    [|discriminate].
  unfold bind at 1. unfold lift at 1.
  destruct (py_iter items) as [elems|e]; [|discriminate].
  unfold bind at 1. unfold log at 1, emit at 1.
  intros H. eauto.
Qed.

Lemma matched_item_is_titled (title : string) (it : pyval F) :
  title <> "" ->
  some_match title it ->
  exists kvs v,
    it = VDict kvs /\ dict_get kvs "title" = Some v /\ py_truthy v = true.
Proof.
  intros Htitle (t & Ht & Hm).
  destruct it as [| | | | | |kvs]; try discriminate.
  unfold item_title, py_get, dict_get_default in Ht.
  destruct (dict_get kvs "title") as [v|] eqn:Hget.
  - exists kvs, v. repeat split; [assumption|].
    destruct (py_truthy v) eqn:Hv; [reflexivity|].
    unfold py_or in Ht. rewrite Hv in Ht. cbn in Ht.
    rewrite str_strip_empty in Ht. injection Ht as <-.
    rewrite (exact_match_empty _ Htitle), keyword_match_empty in Hm.
    destruct Hm as [Hm|Hm]; discriminate.
  - cbn in Ht. rewrite str_strip_empty in Ht. injection Ht as <-.
    rewrite (exact_match_empty _ Htitle), keyword_match_empty in Hm.
    destruct Hm as [Hm|Hm]; discriminate.
Qed.

(** X17. For a search title that is not empty, an item that
    [find_task_by_title] returns is a dict with a truthy [title] field: it
    is never an empty dict, so the test [if existing] of [main] holds for
    every item the search returns. *)
Theorem found_item_is_titled (self : TaskadeClient) (project title : string)
        (st : state F) (it : pyval F) :
  title <> "" ->
  fst (find_task_by_title cfg net self project title st) = Ok (Some it) ->
  (exists kvs v,
      it = VDict kvs /\ dict_get kvs "title" = Some v /\ py_truthy v = true)
  /\ py_truthy it = true.
Proof.
  intros Htitle H.
  apply find_task_by_title_loop in H. destruct H as (elems & st' & H).
  apply scan_tasks_found in H. destruct H as (pre & post & _ & _ & Hm).
  destruct (matched_item_is_titled _ _ Htitle Hm) as (kvs & v & -> & Hget & Hv).
  split; [eauto|].
  destruct kvs; [discriminate | reflexivity].
Qed.

(** X18. If the search finds a task that carries a usable identifier, the
    run updates that task and nothing else: it enters [update_task] once for
    the discovered identifier, never [create_task], and on success prints
    the identifier and exits with status 0; if the update raises it exits
    with status 1. *)
Theorem found_with_id_updates (feed : FeedMessage F) (s1 s2 : state F)
        (it : pyval F) (id : string) :
  let content :=
    format_markdown clk (fst (parse_feed feed)) (snd (parse_feed feed)) in
  let project := TASKADE_PROJECT_ID cfg in
  TASKADE_PROJECT_ID cfg <> "" ->
  TASKADE_API_TOKEN cfg <> "" ->
  str_strip (TASKADE_TASK_ID cfg) = "" ->
  fetch_gtfs_realtime_feed cfg net GTFSR_URL
                           (push (EvLog INFO LogStart) initial)
  = (Ok feed, s1) ->
  find_task_by_title cfg net (the_client cfg) project DASHBOARD_TITLE
    (push (EvLog INFO (LogSearchingExisting DASHBOARD_TITLE project)) s1)
  = (Ok (Some it), s2) ->
  id_of it = Ok id ->
  id <> "" ->
  run cfg clk net
  = match update_task cfg net (the_client cfg) id content
            (push (EvLog INFO (LogFoundExisting id)) s2) with
    | (Ok _, s3) =>
        (Ok 0%Z, push (EvPrintJson (VDict [("TASKADE_TASK_ID", VStr id)])) s3)
    | (Raise e, s3) => on_error e s3
    end
  /\ calls_of (trace (snd (run cfg clk net)))
     = [CallFindTaskByTitle project DASHBOARD_TITLE; CallListTasks project;
        CallUpdateTask id content].
Proof.
  intros content project Hp Ht Hid Hfetch Hfind Hidof Hne.
  assert (Htruthy : py_truthy it = true).
  { assert (Hd : DASHBOARD_TITLE <> "") by discriminate.
    pose proof (find_task_by_title_loop (the_client cfg) project DASHBOARD_TITLE
                  (push (EvLog INFO (LogSearchingExisting DASHBOARD_TITLE project)) s1)
                  (Some it)) as Hloop.
    rewrite Hfind in Hloop. destruct (Hloop eq_refl) as (elems & st' & H).
    apply scan_tasks_found in H. destruct H as (pre & post & _ & _ & Hm).
    destruct (matched_item_is_titled _ _ Hd Hm) as (kvs & v & -> & Hget & _).
    destruct kvs; [discriminate | reflexivity]. }
  assert (Hrun : run cfg clk net
                 = match update_task cfg net (the_client cfg) id content
                           (push (EvLog INFO (LogFoundExisting id)) s2) with
                   | (Ok _, s3) =>
                       (Ok 0%Z,
                        push (EvPrintJson (VDict [("TASKADE_TASK_ID", VStr id)])) s3)
                   | (Raise e, s3) => on_error e s3
                   end).
  { unfold run. rewrite (main_complete _ _ _ _ Hp Ht). unfold catch.
    rewrite (main_body_after_fetch _ _ _ _ _ Ht Hfetch). fold content.
    rewrite (upsert_searches _ _ _ _ _ Hid).
    unfold bind at 1. fold project. rewrite Hfind, Htruthy.
    unfold bind at 1. unfold lift at 1. rewrite Hidof.
    apply truthy_iff in Hne. rewrite Hne. cbn [negb].
    unfold bind, log, emit, ret, print_task_id.
    destruct (update_task cfg net (the_client cfg) id content _)
      as [[v|e] s3]; reflexivity. }
  split; [exact Hrun|]. rewrite Hrun.
  assert (Hc1 : calls_of (trace s1) = []).
  { pose proof (silent_fetch cfg net GTFSR_URL (push (EvLog INFO LogStart) initial))
      as H. now rewrite Hfetch in H. }
  assert (Hc2 : calls_of (trace s2)
                = [CallFindTaskByTitle project DASHBOARD_TITLE;
                   CallListTasks project]).
  { pose proof (find_task_by_title_enters cfg net (the_client cfg) project
                  DASHBOARD_TITLE
                  (push (EvLog INFO (LogSearchingExisting DASHBOARD_TITLE project)) s1))
      as H.
    rewrite Hfind in H. cbn [snd] in H. rewrite H.
    unfold push. cbn [trace]. rewrite calls_of_app, Hc1. reflexivity. }
  pose proof (update_task_calls cfg net (the_client cfg) id content
                (push (EvLog INFO (LogFoundExisting id)) s2)) as Hu.
  unfold push at 2 in Hu. cbn [trace] in Hu.
  rewrite calls_of_app, Hc2 in Hu. cbn [calls_of app] in Hu.
  destruct (update_task cfg net (the_client cfg) id content _) as [[v|e] s3];
    cbn [snd] in Hu.
  - unfold push. cbn [snd trace]. rewrite calls_of_app, Hu. reflexivity.
  - now rewrite (silent_on_error e s3).
Qed.

(** X19. When the listing request is answered with status 200 and a body
    that is neither a list nor a dict with the key ["items"], [list_tasks]
    yields the empty list and the search returns [None] instead of
    failing. *)
Theorem find_in_unexpected_listing (self : TaskadeClient)
        (project title : string) (st st1 : state F) (resp : response F)
        (data : pyval F) :
  http_request cfg net "GET" (req_url (list_request cfg self project))
               (headers self) None
               (push (EvCall (CallListTasks project))
                     (push (EvCall (CallFindTaskByTitle project title)) st))
  = (Ok resp, st1) ->
  status_code resp = 200%Z ->
  json_body resp = Some data ->
  unlisted data = true ->
  find_task_by_title cfg net self project title st
  = (Ok None,
     push (EvLog INFO LogNoMatch)
          (push (EvLog INFO (LogSearching 0 title)) st1)).
Proof.
  intros Hreq Hsc Hjson Hun. unfold find_task_by_title.
  unfold bind at 1. unfold emit at 1. unfold bind at 1.
  unfold list_tasks. unfold bind at 1. unfold emit at 1. unfold bind at 1.
  cbn [list_request req_url] in Hreq. rewrite Hreq, Hsc. cbn [Z.eqb negb Pos.eqb].
  unfold resp_json. rewrite Hjson.
  unfold bind at 1. unfold ret at 1.
  assert (Hitems :
    (match data with
     | VDict kvs => match dict_get kvs "items" with
                    | Some items => ret items
                    | None => ret (VList [])
                    end
     | VList _ => ret data
     | _ => ret (VList [])
     end) st1 = (Ok (VList (F:=F) []), st1)).
  { destruct data as [| | | | |l|kvs]; try reflexivity; try discriminate.
    unfold unlisted in Hun. destruct (dict_get kvs "items");
      [discriminate | reflexivity]. }
  rewrite Hitems. reflexivity.
Qed.

(** X23. The two listing shapes are read alike: when the listing request is
    answered with status 200 and either a bare list or a dict whose
    ["items"] is a list, the search is the loop over that list, in order. *)
Theorem find_reads_both_listing_shapes (self : TaskadeClient)
        (project title : string) (st st1 : state F) (resp : response F)
        (data : pyval F) (items : list (pyval F)) :
  http_request cfg net "GET" (req_url (list_request cfg self project))
               (headers self) None
               (push (EvCall (CallListTasks project))
                     (push (EvCall (CallFindTaskByTitle project title)) st))
  = (Ok resp, st1) ->
  status_code resp = 200%Z ->
  json_body resp = Some data ->
  data = VList items
  \/ (exists kvs, data = VDict kvs /\ dict_get kvs "items" = Some (VList items)) ->
  find_task_by_title cfg net self project title st
  = scan_tasks items title
               (push (EvLog INFO (LogSearching (List.length items) title)) st1).
Proof.
  intros Hreq Hsc Hjson Hshape. unfold find_task_by_title.
  unfold bind at 1. unfold emit at 1. unfold bind at 1.
  unfold list_tasks. unfold bind at 1. unfold emit at 1. unfold bind at 1.
  cbn [list_request req_url] in Hreq. rewrite Hreq, Hsc. cbn [Z.eqb negb Pos.eqb].
  unfold resp_json. rewrite Hjson.
  unfold bind at 1. unfold ret at 1.
  destruct Hshape as [-> | (kvs & -> & Hget)]; [|rewrite Hget]; reflexivity.
Qed.

End MoreClient.

(** ** Title matching and client construction *)

Lemma rev_onto_append (s acc : string) :
  PyStr.rev_onto s acc = PyStr.rev s ++ acc.
Proof.
  unfold PyStr.rev. revert acc.
  induction s as [|c s IH]; intros acc; [reflexivity|]. simpl.
  rewrite (IH (String c acc)), (IH (String c "")).
  now rewrite append_assoc.
Qed.

Lemma rev_cons (c : ascii) (s : string) :
  PyStr.rev (String c s) = PyStr.rev s ++ String c "".
Proof. unfold PyStr.rev at 1. simpl. apply rev_onto_append. Qed.

Lemma rev_append (a b : string) :
  PyStr.rev (a ++ b) = PyStr.rev b ++ PyStr.rev a.
Proof.
  induction a as [|c a IH]; simpl.
  - now rewrite append_empty_r.
  - now rewrite !rev_cons, IH, append_assoc.
Qed.

Lemma rev_involutive (s : string) : PyStr.rev (PyStr.rev s) = s.
Proof.
  induction s as [|c s IH]; [reflexivity|].
  now rewrite rev_cons, rev_append, IH.
Qed.

(** What is left after removing the leading [ch]s does not start with
    [ch], and the removed prefix consists of [ch]s only. *)
Lemma lstrip_char_spec (ch : ascii) (s : string) :
  exists k,
    s = string_of_list_ascii (repeat ch k) ++ PyStr.lstrip_char ch s
    /\ forall r, PyStr.lstrip_char ch s <> String ch r.
Proof.
  induction s as [|c s (k & Hk & Hno)].
  - exists 0. split; [reflexivity | discriminate].
  - simpl. destruct (Ascii.eqb_spec c ch) as [->|Hne].
    + exists (S k). split; [simpl; now rewrite <- Hk | exact Hno].
    + exists 0. split; [reflexivity|]. intros r H. injection H as H _.
      contradiction.
Qed.

Lemma rev_repeat (ch : ascii) (k : nat) :
  PyStr.rev (string_of_list_ascii (repeat ch k))
  = string_of_list_ascii (repeat ch k).
Proof.
  induction k as [|k IH]; [reflexivity|]. simpl. rewrite rev_cons, IH.
  clear. induction k as [|k IH]; [reflexivity|]. simpl. now rewrite IH.
Qed.

Section MoreMatching.

Context {F : Type} {RT : PyRuntime F}.

(** X20. The search is insensitive to the case of the search title: for two
    titles with the same lower-case form the loop returns the same result. *)
Theorem scan_tasks_title_case (items : list (pyval F)) (title title' : string)
        (st : state F) :
  str_lower title = str_lower title' ->
  fst (scan_tasks items title st) = fst (scan_tasks items title' st).
Proof.
  intros Hcase. revert st.
  induction items as [|it rest IH]; intros st; [reflexivity|].
  rewrite !scan_tasks_cons.
  destruct (item_title it) as [t|e]; [|reflexivity].
  unfold exact_match. rewrite Hcase.
  destruct (_ || _); [reflexivity | apply IH].
Qed.

(** X21. The loop fails on the first item it cannot read: when every item
    before a malformed one (not a dict, or with a truthy [title] that is not
    a string) passes neither test, the search raises the error of that item,
    whatever follows it. *)
Theorem scan_tasks_malformed_item (pre post : list (pyval F)) (x : pyval F)
        (title : string) (st : state F) (e : exn) :
  Forall (no_match title) pre ->
  item_title x = Raise e ->
  fst (scan_tasks (pre ++ x :: post) title st) = Raise e.
Proof.
  intros Hpre Hx. revert st.
  induction Hpre as [|y pre (t & Ht & He & Hk) _ IH]; intros st; simpl app;
    rewrite scan_tasks_cons.
  - now rewrite Hx.
  - rewrite Ht, He, Hk. simpl. apply IH.
Qed.

(** X22. [TaskadeClient(base_url, api_token)] fails with [ValueError]
    exactly when the base URL or the token is empty; otherwise it keeps the
    token and the base URL without its trailing slashes, so that [base]
    never ends with a slash. *)
Theorem new_client_spec (base_url api_token : string) :
  (base_url = "" \/ api_token = ""
   -> exists msg, new_client base_url api_token = Raise (ValueError msg))
  /\ (base_url <> "" -> api_token <> ""
      -> exists c k,
          new_client base_url api_token = Ok c
          /\ token c = api_token
          /\ base_url = base c ++ string_of_list_ascii (repeat "/"%char k)
          /\ forall s, base c <> s ++ "/").
Proof.
  split.
  - intros [-> | ->]; [eexists; reflexivity|].
    unfold new_client. destruct (PyStr.truthy base_url); eexists; reflexivity.
  - intros Hb Ht. apply truthy_iff in Hb, Ht.
    unfold new_client. rewrite Hb, Ht. cbn [negb].
    destruct (lstrip_char_spec "/"%char (PyStr.rev base_url)) as (k & Hk & Hno).
    eexists. exists k. split; [reflexivity|]. cbn [token base].
    split; [reflexivity|]. unfold PyStr.rstrip_char. split.
    + rewrite <- (rev_involutive base_url) at 1. rewrite Hk at 1.
      now rewrite rev_append, rev_repeat.
    + intros s H.
      apply (f_equal PyStr.rev) in H.
      rewrite rev_involutive, rev_append in H. cbn in H.
      exact (Hno _ H).
Qed.

End MoreMatching.

(** ** Concrete runs for the further properties *)

Module MoreRuns.

Import Exact.

Ltac evaluate :=
  match goal with
  | |- ?l = _ => let v := eval vm_compute in l in change l with v
  end;
  reflexivity.

Lemma http_request_without_attempts_witness :
  http_request cfg_no_retries net_always_503 "GET" "u" [] None initial
  = (Raise AssertionError, initial).
Proof.
  apply (http_request_without_attempts cfg_no_retries net_always_503).
  vm_compute. discriminate.
Defined.

Lemma http_request_recovers_witness :
  http_request cfg0 net_503_then_404 "GET" "u" [] None initial
  = (Ok (with_status 404),
     {| sent := 0 + 1 + 1;
        trace := [] ++ flat_map
                   (failed_attempt cfg0 get_request
                      (fun _ => HTTPError "Server error 503: " None)
                      (fun i => Qred (Qpower (3 # 2) (Z.of_nat i))))
                   (seq 0 1)
                   ++ [EvRequest get_request] |}).
Proof.
  apply (http_request_recovers cfg0 net_503_then_404 "GET" "u" [] None initial
           (fun _ => HTTPError "Server error 503: " None)
           (fun i => Qred (Qpower (3 # 2) (Z.of_nat i))) 1 (with_status 404)).
  - vm_compute. lia.
  - intros i Hi. destruct i as [|i]; [reflexivity | lia].
  - intros i Hi. destruct i as [|i]; [split; reflexivity | lia].
  - reflexivity.
  - vm_compute. reflexivity.
Defined.

Lemma http_request_backoff_error_witness :
  fst (http_request cfg_negative_backoff net_always_503 "GET" "u" [] None initial)
  = Raise (ValueError "sleep length must be non-negative")
  /\ sent (snd (http_request cfg_negative_backoff net_always_503 "GET" "u" []
                  None initial))
     = 0 + 1 + 1.
Proof.
  apply (http_request_backoff_error cfg_negative_backoff net_always_503
           "GET" "u" [] None initial
           (fun _ => HTTPError "Server error 503: " None)
           (fun i => Qred (Qpower (-3 # 2) (Z.of_nat i))) 1
           (HTTPError "Server error 503: " None)).
  - vm_compute. lia.
  - intros i Hi. reflexivity.
  - intros i Hi. destruct i as [|i]; [split; reflexivity | lia].
  - reflexivity.
  - right. eexists. split; reflexivity.
Defined.

Lemma fetch_failure_exits_1_witness :
  fst (run cfg0 clk0 net_down) = Ok 1%Z
  /\ calls_of (trace (snd (run cfg0 clk0 net_down))) = []
  /\ sent (snd (run cfg0 clk0 net_down)) = 1
  /\ count is_request (trace (snd (run cfg0 clk0 net_down))) = 1
  /\ exists m, In (EvLog ERROR m) (trace (snd (run cfg0 clk0 net_down))).
Proof.
  eapply (fetch_failure_exits_1 cfg0 clk0 net_down).
  - discriminate.
  - discriminate.
  - evaluate.
Defined.

Lemma update_task_single_answer_witness :
  update_task cfg0 net_404 client0 "abc" "report" initial
  = (Raise (RuntimeError "Update task failed: 404 "),
     {| sent := 1;
        trace := [EvCall (CallUpdateTask "abc" "report");
                  EvLog INFO (LogUpdating "abc"
                                (req_url (update_request cfg0 client0 "abc" "report")));
                  EvRequest (update_request cfg0 client0 "abc" "report")] |}).
Proof.
  apply (update_task_single_answer cfg0 net_404 client0 "abc" "report" initial
           (with_status 404)).
  - vm_compute. discriminate.
  - reflexivity.
  - vm_compute. reflexivity.
Defined.

Lemma create_prints_new_id_witness :
  fst (main cfg0 clk0 net_found_without_id initial) = Ok 0%Z
  /\ In (EvPrintJson (VDict [("TASKADE_TASK_ID", VStr "new1")]))
        (trace (snd (main cfg0 clk0 net_found_without_id initial))).
Proof.
  assert (H : exists st1,
    main cfg0 clk0 net_found_without_id initial
    = (Ok 0%Z,
       push (EvPrintJson (VDict [("TASKADE_TASK_ID", VStr (py_str (VStr "new1")))]))
         (push (EvLog INFO (LogCreatedId (py_str (VStr "new1"))))
            (push (EvLog INFO (LogCreated (VStr "new1")))
               (push (EvLog INFO
                        (LogCreateResponse
                           (VDict [("item", VList [VDict [("id", VStr "new1")]])])))
                     st1))))).
  { eexists.
    eapply (create_prints_new_id cfg0 clk0 net_found_without_id initial _ _
              client0 _
              (with_json 200 (VDict [("item", VList [VDict [("id", VStr "new1")]])]))).
    - discriminate.
    - discriminate.
    - eapply (found_without_id_takes_create_branch cfg0 clk0
                net_found_without_id empty_feed _ _ item_without_id).
      + discriminate.
      + reflexivity.
      + evaluate.
      + evaluate.
      + reflexivity.
      + reflexivity.
    - evaluate.
    - left; reflexivity.
    - reflexivity.
    - reflexivity.
    - reflexivity.
    - discriminate. }
  destruct H as (st1 & ->). split; [reflexivity|].
  unfold push at 1. cbn [snd trace]. apply in_or_app. right. now left.
Defined.

Lemma create_without_usable_id_witness :
  fst (main cfg0 clk0 net_create_null_id initial) = Ok 0%Z
  /\ In (EvLog WARNING LogCreatedNoId)
        (trace (snd (main cfg0 clk0 net_create_null_id initial))).
Proof.
  assert (H : exists st1,
    main cfg0 clk0 net_create_null_id initial
    = (Ok 0%Z,
       push (EvLog WARNING LogCreatedNoId)
         (push (EvLog INFO (LogCreated VNone))
            (push (EvLog INFO
                     (LogCreateResponse
                        (VDict [("item", VList [VDict [("id", VNone)]])])))
                  st1)))).
  { eexists.
    eapply (create_without_usable_id cfg0 clk0 net_create_null_id initial _ _
              client0 _
              (with_json 201 (VDict [("item", VList [VDict [("id", VNone)]])]))).
    - discriminate.
    - discriminate.
    - eapply (search_none_takes_create_branch cfg0 clk0 net_create_null_id
                empty_feed).
      + discriminate.
      + reflexivity.
      + evaluate.
      + evaluate.
    - evaluate.
    - right; reflexivity.
    - reflexivity.
    - reflexivity.
    - reflexivity. }
  destruct H as (st1 & ->). split; [reflexivity|].
  unfold push at 1. cbn [snd trace]. apply in_or_app. right. now left.
Defined.

Lemma found_item_is_titled_witness :
  (exists kvs v,
      keyword_item = VDict kvs /\ dict_get kvs "title" = Some v
      /\ py_truthy v = true)
  /\ py_truthy keyword_item = true.
Proof.
  apply (found_item_is_titled cfg0 net_keyword_then_exact client0 "proj"
           DASHBOARD_TITLE initial keyword_item).
  - discriminate.
  - vm_compute. reflexivity.
Defined.

Lemma found_with_id_updates_witness :
  fst (run cfg0 clk0 net_found_with_id) = Ok 0%Z
  /\ calls_of (trace (snd (run cfg0 clk0 net_found_with_id)))
     = [CallFindTaskByTitle "proj" DASHBOARD_TITLE; CallListTasks "proj";
        CallUpdateTask "b" (format_markdown clk0 None [])].
Proof.
  pose proof (found_with_id_updates cfg0 clk0 net_found_with_id empty_feed
                (snd (fetch_gtfs_realtime_feed cfg0 net_found_with_id GTFSR_URL
                        (push (EvLog INFO LogStart) initial)))
                (snd (find_task_by_title cfg0 net_found_with_id client0 "proj"
                        DASHBOARD_TITLE
                        (push (EvLog INFO (LogSearchingExisting DASHBOARD_TITLE "proj"))
                           (snd (fetch_gtfs_realtime_feed cfg0 net_found_with_id
                                   GTFSR_URL
                                   (push (EvLog INFO LogStart) initial))))))
                exact_item "b") as H.
  cbv zeta in H.
  assert (Hp : TASKADE_PROJECT_ID cfg0 <> "") by discriminate.
  assert (Ht : TASKADE_API_TOKEN cfg0 <> "") by discriminate.
  assert (Hid : str_strip (TASKADE_TASK_ID cfg0) = "") by reflexivity.
  assert (Hne : "b" <> "") by discriminate.
  destruct (H Hp Ht Hid) as (Hrun & Hcalls);
    [vm_compute; reflexivity | vm_compute; reflexivity | reflexivity | exact Hne |].
  split; [|exact Hcalls].
  vm_compute. reflexivity.
Defined.

Lemma find_in_unexpected_listing_witness :
  fst (find_task_by_title cfg0 net_listing_scalar client0 "proj"
         DASHBOARD_TITLE initial)
  = Ok None.
Proof.
  erewrite (find_in_unexpected_listing cfg0 net_listing_scalar client0 "proj"
              DASHBOARD_TITLE initial _ (with_json 200 (VInt 7)) (VInt 7)).
  - reflexivity.
  - evaluate.
  - reflexivity.
  - reflexivity.
  - reflexivity.
Defined.

Lemma scan_tasks_title_case_witness :
  fst (scan_tasks [keyword_item; exact_item] "ktm train STATUS live update"
                  initial)
  = fst (scan_tasks [keyword_item; exact_item] DASHBOARD_TITLE initial).
Proof.
  apply (scan_tasks_title_case [keyword_item; exact_item]
           "ktm train STATUS live update" DASHBOARD_TITLE initial).
  vm_compute. reflexivity.
Defined.

Lemma scan_tasks_malformed_item_witness :
  fst (scan_tasks ([item_without_title] ++ VStr "oops" :: [exact_item])
                  DASHBOARD_TITLE initial)
  = Raise AttributeError.
Proof.
  apply (scan_tasks_malformed_item [item_without_title] [exact_item]
           (VStr "oops") DASHBOARD_TITLE initial AttributeError).
  - constructor; [|constructor]. exists "". repeat split.
  - reflexivity.
Defined.

Lemma new_client_spec_witness :
  (exists msg, new_client "https://x/api/" "" = Raise (ValueError msg))
  /\ exists c k,
      new_client "https://x/api//" "tok" = Ok c
      /\ token c = "tok"
      /\ "https://x/api//" = base c ++ string_of_list_ascii (repeat "/"%char k)
      /\ forall s, base c <> s ++ "/".
Proof.
  split.
  - apply (proj1 (new_client_spec "https://x/api/" "")). right. reflexivity.
  - apply (proj2 (new_client_spec "https://x/api//" "tok")); discriminate.
Defined.

Lemma find_reads_both_listing_shapes_witness :
  fst (find_task_by_title cfg0 net_listing_dict client0 "proj" DASHBOARD_TITLE
         initial)
  = Ok (Some keyword_item).
Proof.
  erewrite (find_reads_both_listing_shapes cfg0 net_listing_dict client0 "proj"
              DASHBOARD_TITLE initial _
              (with_json 200 (VDict [("items", VList [keyword_item; exact_item])]))
              _ [keyword_item; exact_item]).
  - vm_compute. reflexivity.
  - evaluate.
  - reflexivity.
  - reflexivity.
  - right. eexists. split; reflexivity.
Defined.

End MoreRuns.
